(** * JackknifeAnalyzer: a shallow embedding and its specification

    The development follows [include/JackknifeAnalyzer.hh] and
    [include/detail/JackknifeAnalyzer.tcc].  The class template
    [JackknifeAnalyzer<K, T>] owns two [std::map]s keyed by [K]
    ([Xs_mu], [Xs_reduced_samples]) and two [std::size_t] members
    ([N_bins], [bin_size]).  Maps are stdpp's [gmap], [std::vector<T>]
    is [list T], [std::size_t] is [N] with the wrap-around of the one
    subtraction that can wrap written out, and a member function that
    mutates the object is a function from the store before the call to
    an [outcome] that carries the store after it, also when the call
    leaves by an exception. *)

From Stdlib Require Import NArith ZArith SpecFloat.
From stdpp Require Import gmap strings list fin_maps numbers vector sorting.

Local Open Scope N_scope.

(** ** [double]

    [double] is IEEE binary64: the operations of the Standard
    Library's [SpecFloat] at precision 53 and [emax] 1024, rounding to
    nearest, ties to even. *)
Definition double : Type := spec_float.
Definition double_zero : double := S754_zero false.                (* 0.0 *)
Definition double_add : double → double → double := SFadd 53 1024.
Definition double_sub : double → double → double := SFsub 53 1024.
Definition double_mul : double → double → double := SFmul 53 1024.
Definition double_div : double → double → double := SFdiv 53 1024.
Definition double_sqrt : double → double := SFsqrt 53 1024.        (* sqrt(x) *)

(** ** The arithmetic type [T]

    [static_assert(std::is_arithmetic<T>::value)] is the only constraint
    the class puts on [T].  The operations the member functions use are
    collected in a class; no law is assumed of them unless a theorem
    says so.  [resample] computes in [T] alone.  [sigma] and
    [jackknife] also compute in [double]: [pow] of two [T] is a
    [double], [sqrt] is the one of [double], the accumulator of
    [sigma] is a [double], and values pass between [T] and [double] by
    the implicit conversions.  [div_undefined x y] says that [x / y]
    on [T] has undefined behaviour (an integral [T] divided by zero);
    [sigma] and [jackknife] divide by the converted bin count, which is
    zero on a store without bins.  In an expression of a [T] and a
    [double] the [T] is converted to [double] (a [T] wider than
    [double] is not modelled).  Overflow of a signed integral [T] and
    conversions of values out of range are not modelled: the operations
    other than [/] are total. *)
Class Arithmetic (T : Type) := {
  of_int : Z → T;                (* T x = 0;  (T) 2 *)
  of_size : N → T;               (* static_cast<T>(std::size_t), (T) N_bins *)
  add : T → T → T;               (* operator+= *)
  sub : T → T → T;               (* operator-, operator-= *)
  mul : T → T → T;               (* operator* *)
  div : T → T → T;               (* operator/ *)
  div_undefined : T → T → bool;  (* operator/ has undefined behaviour *)
  to_double : T → double;        (* conversion of a T to double *)
  of_double : double → T;        (* conversion of a double to T *)
  pow : T → T → double           (* pow(x, y) *)
}.

(** *** Conversions and [pow] for the instances *)

(** An integer as a floating-point number of the given format. *)
Definition SF_of_Z (prec emax : Z) (z : Z) : spec_float :=
  binary_normalize prec emax z 0 false.

(** A floating-point number rounded into the given format. *)
Definition SF_round (prec emax : Z) (x : spec_float) : spec_float :=
  match x with
  | S754_finite s m e => binary_normalize prec emax (cond_Zopp s (Zpos m)) e s
  | _ => x
  end.

(** A floating-point number truncated towards zero. *)
Definition SF_trunc (x : spec_float) : Z :=
  match x with
  | S754_finite s m e => cond_Zopp s (Z.shiftl (Zpos m) e)
  | _ => 0%Z
  end.

(** [pow(x, y)] on [double] for an integral [y], by repeated
    multiplication; it is the exact power whenever that is a [double].
    The member functions call [pow] with the exponent [(T) 2] only;
    other than integral exponents give NaN here. *)
Definition double_pow (x y : double) : double :=
  let n := SF_trunc y in
  if SFeqb (SF_of_Z 53 1024 n) y then
    match n with
    | Z0 => SF_of_Z 53 1024 1
    | Zpos p => Pos.iter (double_mul x) (SF_of_Z 53 1024 1) p
    | Zneg p =>
        double_div (SF_of_Z 53 1024 1)
                   (Pos.iter (double_mul x) (SF_of_Z 53 1024 1) p)
    end
  else S754_nan.

(** Integral [T] ([long]), for values in its range: division
    truncates towards zero and is undefined by zero, a [long] becomes
    the nearest [double] and a [double] is truncated towards zero. *)
#[export] Instance Z_Arithmetic : Arithmetic Z := {
  of_int := id;
  of_size := Z.of_N;
  add := Z.add;
  sub := Z.sub;
  mul := Z.mul;
  div := Z.quot;
  div_undefined := λ _ y, Z.eqb y 0;
  to_double := SF_of_Z 53 1024;
  of_double := SF_trunc;
  pow := λ x y, double_pow (SF_of_Z 53 1024 x) (SF_of_Z 53 1024 y)
}.

(** [T = float], IEEE binary32: every operation on [T] rounds to
    precision 24, the conversion to [double] is exact and the one from
    [double] rounds.  [pow] is the one of [double]; its [float]
    overload returns the same value rounded to [float]. *)
Definition float : Type := spec_float.
#[export] Instance float_Arithmetic : Arithmetic float := {
  of_int := SF_of_Z 24 128;
  of_size := λ n, SF_of_Z 24 128 (Z.of_N n);
  add := SFadd 24 128;
  sub := SFsub 24 128;
  mul := SFmul 24 128;
  div := SFdiv 24 128;
  div_undefined := λ _ _, false;
  to_double := SF_round 53 1024;
  of_double := SF_round 24 128;
  pow := λ x y, double_pow (SF_round 53 1024 x) (SF_round 53 1024 y)
}.

(** [T = double]: the conversions are the identity. *)
#[export] Instance double_Arithmetic : Arithmetic double := {
  of_int := SF_of_Z 53 1024;
  of_size := λ n, SF_of_Z 53 1024 (Z.of_N n);
  add := double_add;
  sub := double_sub;
  mul := double_mul;
  div := double_div;
  div_undefined := λ _ _, false;
  to_double := id;
  of_double := id;
  pow := double_pow
}.

#[global] Typeclasses Opaque double float.

(** ** [std::size_t] *)

Definition SIZE_MAX_succ : N := 2 ^ 64.

(** [a - b] on [std::size_t]: modulo [2^64]. *)
Definition size_sub (a b : N) : N :=
  if b <=? a then a - b else SIZE_MAX_succ - (b - a).

(** [vector::size()]. *)
Definition size {A} (v : list A) : N := N.of_nat (length v).

(** The values [lo, lo+1, ..., hi-1] a [for (i = lo; i < hi; ++i)] loop
    runs through. *)
Definition range (lo hi : N) : list N :=
  (λ j, lo + N.of_nat j) <$> seq 0 (N.to_nat (hi - lo)).

(** ** Exceptions and outcomes *)

Inductive exn :=
  | runtime_error (what : string)   (* thrown by init_or_verify_N *)
  | out_of_range.                   (* thrown by map::at and vector::at *)

Definition less_than_2_bins : string :=
  "trying to add dataset with less than 2 bins.".
Definition different_number_of_bins : string :=
  "trying to add dataset with different number of bins than already existing ones.".

(** Result of a [const] member function: a value, an exception, or
    undefined behaviour. *)
Inductive result (A : Type) :=
  | Ret (a : A)
  | Raise (e : exn)
  | Undef.
Arguments Ret {A} a.
Arguments Raise {A} e.
Arguments Undef {A}.

Section Analyzer.
Context {K : Type} `{Countable K}.
Context {T : Type} `{Arithmetic T}.

(** The data members of the class. *)
Record Store := mkStore {
  N_bins : N;
  bin_size : N;   (* declared as bin_omit_point_num in the header *)
  Xs_reduced_samples : gmap K (list T);
  Xs_mu : gmap K T
}.

Definition set_N_bins (n : N) (st : Store) : Store :=
  mkStore n (bin_size st) (Xs_reduced_samples st) (Xs_mu st).
Definition set_mu (k : K) (m : T) (st : Store) : Store :=
  mkStore (N_bins st) (bin_size st) (Xs_reduced_samples st) (<[k := m]> (Xs_mu st)).
Definition set_reduced_samples (k : K) (v : list T) (st : Store) : Store :=
  mkStore (N_bins st) (bin_size st) (<[k := v]> (Xs_reduced_samples st)) (Xs_mu st).

(** Result of a mutating member function: the store after a normal
    return, the exception and the store as the call left it, or
    undefined behaviour (integral division by zero, an unchecked
    [operator[]] outside the vector). *)
Inductive outcome :=
  | Ok (st : Store)
  | Throw (e : exn) (st : Store)
  | Undefined.

(** [JackknifeAnalyzer(std::size_t bin_size)]. *)
Definition create (bs : N) : Store := mkStore 0 bs ∅ ∅.

(** [Xs_reduced_samples.count(key) == 0 && Xs_mu.count(key) == 0]. *)
Definition not_present (key : K) (st : Store) : bool :=
  bool_decide (Xs_reduced_samples st !! key = None)
  && bool_decide (Xs_mu st !! key = None).

(** [init_or_verify_N(Xsamples, binned)]; only [Xsamples.size()] is
    used.  The function returns [true] whenever it returns. *)
Definition init_or_verify_N (Xsamples_size : N) (binned : bool) (st : Store) : outcome :=
  let d := if binned then 1 else bin_size st in
  if d =? 0 then Undefined else
  let num_bins := Xsamples_size / d in
  if N_bins st =? 0 then
    if 1 <? num_bins then Ok (set_N_bins num_bins st)
    else Throw (runtime_error less_than_2_bins) st
  else if negb (num_bins =? N_bins st) then
    Throw (runtime_error different_number_of_bins) st
  else Ok st.

(** [add_resampled(Xkey, Xjackknife_samples, mu_X)]. *)
Definition add_resampled (Xkey : K) (Xjackknife_samples : list T) (mu_X : T)
    (st : Store) : outcome :=
  if not_present Xkey st then
    match init_or_verify_N (size Xjackknife_samples) true st with
    | Ok st1 => Ok (set_mu Xkey mu_X (set_reduced_samples Xkey Xjackknife_samples st1))
    | o => o
    end
  else Ok st.

(** [for (T d : Xsamples) sum_samples += d], from [T sum_samples = 0]. *)
Definition sum_of (Xsamples : list T) : T :=
  foldl add (of_int 0) Xsamples.

(** The inner loop of [resample]: [red_sample -= Xsamples[i]] for
    [i] from [b * bin_size] up to [next_bin_first_sample]. [None] is
    an [operator[]] outside the vector. *)
Definition red_sample_of (Xsamples : list T) (sum_samples : T) (bs b : N) : option T :=
  let next_bin_first_sample := (b + 1) * bs in
  foldl (λ red_sample i,
           r ← red_sample; x ← Xsamples !! N.to_nat i; Some (sub r x))
        (Some sum_samples) (range (b * bs) next_bin_first_sample).

(** [resample(Xkey, Xsamples)]. *)
Definition resample (Xkey : K) (Xsamples : list T) (st : Store) : outcome :=
  if not_present Xkey st then
    match init_or_verify_N (size Xsamples) false st with
    | Ok st1 =>
        let sum_samples := sum_of Xsamples in
        let st2 := set_mu Xkey (div sum_samples (of_size (size Xsamples))) st1 in
        match
          mapM (λ b, r ← red_sample_of Xsamples sum_samples (bin_size st2) b;
                     Some (div r (of_size (size_sub (size Xsamples) (bin_size st2)))))
               (range 0 (N_bins st2))
        with
        | Some red_samples => Ok (set_reduced_samples Xkey red_samples st2)
        | None => Undefined
        end
    | o => o
    end
  else Ok st.

(** [JackknifeAnalyzer(Xkey, Xsamples, bin_size)]: the delegating
    constructor, then [resample(Xkey, Xsamples)]. *)
Definition create_resample (Xkey : K) (Xsamples : list T) (bs : N) : outcome :=
  resample Xkey Xsamples (create bs).

(** [add_function(Fkey, F, F_arg_keys)], the overload taking a
    [std::vector<K>] of keys and a function of a [std::vector<T>].
    [F] is a pure function; [map::at] and [vector::at] throw
    [std::out_of_range]. *)
Definition add_function (Fkey : K) (F : list T → T) (F_arg_keys : list K)
    (st : Store) : outcome :=
  if not_present Fkey st then
    match mapM (λ key, Xs_mu st !! key) F_arg_keys with
    | None => Throw out_of_range st
    | Some args_mu =>
        let st1 := set_mu Fkey (F args_mu) st in
        match
          mapM (λ i, args_red_samples ←
                       mapM (λ key, v ← Xs_reduced_samples st1 !! key; v !! N.to_nat i)
                            F_arg_keys;
                     Some (F args_red_samples))
               (range 0 (N_bins st1))
        with
        | None => Throw out_of_range st1
        | Some F_jackknife_samples =>
            Ok (set_reduced_samples Fkey F_jackknife_samples st1)
        end
    end
  else Ok st.

(** A function of [n] parameters of type [T]. *)
Fixpoint nfun (n : nat) : Type :=
  match n with
  | O => T
  | S m => T → nfun m
  end.

(** [F(look(F_arg_keys)...)]: the pack expansion looks every key up
    and calls [F] on the values; [None] when a lookup throws.  The
    order in which C++ evaluates the arguments is unspecified, and
    every failing lookup throws the same [std::out_of_range]. *)
Fixpoint apply_pack {n} (look : K → option T) (F_arg_keys : vec K n) : nfun n → option T :=
  match F_arg_keys in vec _ n return nfun n → option T with
  | [#] => λ F, Some F
  | key ::: keys => λ F, x ← look key; apply_pack look keys (F x)
  end.

(** [add_function(Fkey, F, F_arg_keys...)], the variadic overload. *)
Definition add_function_pack {n} (Fkey : K) (F : nfun n) (F_arg_keys : vec K n)
    (st : Store) : outcome :=
  if not_present Fkey st then
    match apply_pack (λ key, Xs_mu st !! key) F_arg_keys F with
    | None => Throw out_of_range st
    | Some F_mu =>
        let st1 := set_mu Fkey F_mu st in
        match
          mapM (λ i, apply_pack
                       (λ key, v ← Xs_reduced_samples st1 !! key; v !! N.to_nat i)
                       F_arg_keys F)
               (range 0 (N_bins st1))
        with
        | None => Throw out_of_range st1
        | Some F_jackknife_samples =>
            Ok (set_reduced_samples Fkey F_jackknife_samples st1)
        end
    end
  else Ok st.

(** [remove(Xkey)]; [map::erase] does not throw. *)
Definition remove (Xkey : K) (st : Store) : Store :=
  mkStore (N_bins st) (bin_size st)
          (delete Xkey (Xs_reduced_samples st)) (delete Xkey (Xs_mu st)).

(** [map::at]. *)
Definition at_ {V} (m : gmap K V) (key : K) : result V :=
  match m !! key with
  | Some v => Ret v
  | None => Raise out_of_range
  end.

Definition result_bind {A B} (r : result A) (f : A → result B) : result B :=
  match r with
  | Ret a => f a
  | Raise e => Raise e
  | Undef => Undef
  end.

(** [mu(Xkey)]. *)
Definition mu (Xkey : K) (st : Store) : result T := at_ (Xs_mu st) Xkey.

(** [samples(Xkey)]. *)
Definition samples (Xkey : K) (st : Store) : result (list T) :=
  at_ (Xs_reduced_samples st) Xkey.

(** [((T) (N_bins - 1)) / ((T) N_bins)], the factor of [sigma] and
    [jackknife]; the subtraction is the one of [std::size_t]. *)
Definition bins_ratio (st : Store) : result T :=
  let n_1 := of_size (size_sub (N_bins st) 1) in
  let n := of_size (N_bins st) in
  if div_undefined n_1 n then Undef else Ret (div n_1 n).

(** [sigma(Xkey)]: the accumulator is a [double]; [Xs_mu.at(Xkey)]
    is evaluated anew for every element of the series; the product of
    the factor and the accumulator is a [double], and the [double]
    that [sqrt] returns is converted to [T]. *)
Definition sigma (Xkey : K) (st : Store) : result T :=
  result_bind (at_ (Xs_reduced_samples st) Xkey) (λ v,
  result_bind
    (foldl (λ acc d,
              result_bind acc (λ sigma,
              result_bind (at_ (Xs_mu st) Xkey) (λ m,
              Ret (double_add sigma (pow (sub d m) (of_int 2))))))
           (Ret double_zero) v)
    (λ sigma,
  result_bind (bins_ratio st) (λ ratio,
  Ret (of_double (double_sqrt (double_mul (to_double ratio) sigma)))))).

(** [jackknife(Xkey, mu_X, sigma_X)]: the returned triple is the
    [bool] result and the values of the two reference parameters
    after the call.  The accumulator is the [T&] parameter [sigma_X]:
    each [+=] adds in [double] and converts the sum to [T]; the product
    of the factor and the accumulator is a [T].  The member function is
    [const]. *)
Definition jackknife (Xkey : K) (mu_X sigma_X : T) (st : Store) : result (bool * T * T) :=
  if bool_decide (is_Some (Xs_reduced_samples st !! Xkey))
     && bool_decide (is_Some (Xs_mu st !! Xkey)) then
    result_bind (at_ (Xs_mu st) Xkey) (λ mu_X,
    let sigma_X := of_int 0 in
    result_bind (at_ (Xs_reduced_samples st) Xkey) (λ v,
    let sigma_X :=
      foldl (λ sigma_X d,
               of_double (double_add (to_double sigma_X)
                                     (pow (sub d mu_X) (of_int 2))))
            sigma_X v in
    result_bind (bins_ratio st) (λ ratio,
    Ret (true, mu_X,
         of_double (double_sqrt (to_double (mul ratio sigma_X)))))))
  else Ret (false, mu_X, sigma_X).

(** ** Sequences of calls on one store *)

Inductive op :=
  | op_resample (Xkey : K) (Xsamples : list T)
  | op_add_resampled (Xkey : K) (Xjackknife_samples : list T) (mu_X : T)
  | op_add_function (Fkey : K) (F : list T → T) (F_arg_keys : list K)
  | op_add_function_pack {n} (Fkey : K) (F : nfun n) (F_arg_keys : vec K n)
  | op_remove (Xkey : K).

Definition run_op (o : op) (st : Store) : outcome :=
  match o with
  | op_resample k xs => resample k xs st
  | op_add_resampled k v m => add_resampled k v m st
  | op_add_function k F ks => add_function k F ks st
  | op_add_function_pack k F ks => add_function_pack k F ks st
  | op_remove k => Ok (remove k st)
  end.

(** The store a call leaves behind; a caller that catches the
    exception goes on with the store as the call left it. *)
Definition store_after (o : outcome) : option Store :=
  match o with
  | Ok st | Throw _ st => Some st
  | Undefined => None
  end.

Fixpoint run_ops (ops : list op) (st : Store) : option Store :=
  match ops with
  | [] => Some st
  | o :: ops => st1 ← store_after (run_op o st); run_ops ops st1
  end.

(** ** Notions the statements below are written with *)

(** The samples of bin [b]: [Xsamples[b * bs .. (b + 1) * bs - 1]]. *)
Definition bin (Xsamples : list T) (bs b : N) : list T :=
  take (N.to_nat bs) (drop (N.to_nat (b * bs)) Xsamples).

(** The vector [red_samples] that [resample] builds for [nb] bins:
    the bin's samples taken off [sum_samples] one after the other,
    the difference divided by the converted [size() - bin_size]. *)
Definition reduced_samples_of (Xsamples : list T) (bs nb : N) : list T :=
  (λ b, div (foldl sub (sum_of Xsamples) (bin Xsamples bs b))
            (of_size (size_sub (size Xsamples) bs))) <$> range 0 nb.

(** The squared deviations [pow(d - m, (T) 2)] of a series from a
    mean, and their sum as [sigma] accumulates it in a [double] and as
    [jackknife] accumulates it in a [T]. *)
Definition squared_deviations (v : list T) (m : T) : list double :=
  (λ d, pow (sub d m) (of_int 2)) <$> v.
Definition double_sum (l : list double) : double :=
  foldl double_add double_zero l.
Definition sum_in_T (l : list double) : T :=
  foldl (λ s x, of_double (double_add (to_double s) x)) (of_int 0) l.

(** Joint presence: a key has a mean and a series of [N_bins]
    entries, or it has neither. *)
Definition joint_presence (st : Store) : Prop :=
  ∀ key,
    (Xs_mu st !! key = None ∧ Xs_reduced_samples st !! key = None)
    ∨ (is_Some (Xs_mu st !! key)
       ∧ ∃ v, Xs_reduced_samples st !! key = Some v ∧ size v = N_bins st).

(** Joint presence, and no dataset at all while [N_bins] is unset. *)
Definition well_formed (st : Store) : Prop :=
  joint_presence st
  ∧ (N_bins st = 0 → Xs_mu st = ∅ ∧ Xs_reduced_samples st = ∅).

(** A call that is not an [add_function] without argument keys. *)
Definition has_arguments (o : op) : Prop :=
  match o with
  | op_add_function _ _ F_arg_keys => F_arg_keys ≠ []
  | @op_add_function_pack n _ _ _ => n ≠ O
  | _ => True
  end.

(** An [n]-parameter function applied to [n] values. *)
Fixpoint napply {n} (args : vec T n) : nfun n → T :=
  match args in vec _ n return nfun n → T with
  | [#] => λ F, F
  | x ::: args => λ F, napply args (F x)
  end.

End Analyzer.

Arguments Store K {_ _} T.
Arguments outcome K {_ _} T.


(** ** [keys()] and the key of a call *)

Section Keys.
Context {K : Type} `{Countable K} {T : Type}.

(** [std::less<K>], the order [std::map<K, T>] keeps its entries in. *)
Context (less : relation K) `{!RelDecision less}.

(** [keys()]: the range-for over [Xs_mu] visits the entries in
    ascending order of their keys and pushes each key. *)
Definition keys (st : Store K T) : list K :=
  merge_sort (λ x y, ¬ less y x) (map_to_list (Xs_mu st)).*1.

End Keys.

Section Calls.
Context {K T : Type}.

(** The key a registering call stores its dataset under. *)
Definition op_key (o : @op K T) : option K :=
  match o with
  | op_resample Xkey _ | op_add_resampled Xkey _ _ => Some Xkey
  | op_add_function Fkey _ _ | op_add_function_pack Fkey _ _ => Some Fkey
  | op_remove _ => None
  end.

End Calls.

(** * Properties *)

(** ** [std::size_t] arithmetic and loop ranges *)

Lemma size_sub_le (a b : N) : b ≤ a → size_sub a b = a - b.
Proof.
  intros Hle. unfold size_sub.
  destruct (N.leb_spec b a) as [_|Hlt]; [reflexivity | lia].
Qed.

Lemma range_length (lo hi : N) : length (range lo hi) = N.to_nat (hi - lo).
Proof. unfold range. by rewrite length_fmap, length_seq. Qed.

Lemma range_lookup (lo hi : N) (i : nat) :
  (i < N.to_nat (hi - lo))%nat → range lo hi !! i = Some (lo + N.of_nat i).
Proof.
  intros Hi. unfold range.
  rewrite list_lookup_fmap, lookup_seq_lt by done. reflexivity.
Qed.

Lemma elem_of_range (lo hi x : N) : x ∈ range lo hi ↔ lo ≤ x < hi.
Proof.
  unfold range. rewrite list_elem_of_fmap. split.
  - intros (j & -> & Hj). apply elem_of_seq in Hj. lia.
  - intros Hx. exists (N.to_nat (x - lo)). split; [lia|].
    apply elem_of_seq. lia.
Qed.

Lemma range_0_lookup (n : N) (i : nat) :
  (i < N.to_nat n)%nat → range 0 n !! i = Some (N.of_nat i).
Proof.
  intros Hi. rewrite range_lookup by (rewrite N.sub_0_r; done).
  by rewrite N.add_0_l.
Qed.

Section Properties.
Context {K : Type} `{Countable K}.
Context {T : Type} `{Arithmetic T}.
Implicit Types (st : Store K T) (k : K) (xs v : list T) (binned : bool).

(** *** The presence test *)

Lemma not_present_true k st :
  not_present k st = true ↔
  Xs_reduced_samples st !! k = None ∧ Xs_mu st !! k = None.
Proof.
  unfold not_present.
  rewrite andb_true_iff, !bool_decide_eq_true. reflexivity.
Qed.

Lemma not_present_false k st :
  not_present k st = false ↔
  is_Some (Xs_reduced_samples st !! k) ∨ is_Some (Xs_mu st !! k).
Proof.
  unfold not_present.
  rewrite andb_false_iff, !bool_decide_eq_false, <- !not_eq_None_Some.
  reflexivity.
Qed.

(** *** [init_or_verify_N] *)

Lemma init_or_verify_N_first (n : N) binned st :
  (if binned then 1 else bin_size st) ≠ 0 →
  N_bins st = 0 → 1 < n / (if binned then 1 else bin_size st) →
  init_or_verify_N n binned st
  = Ok (set_N_bins (n / (if binned then 1 else bin_size st)) st).
Proof.
  intros Hd HN Hn. unfold init_or_verify_N.
  destruct (N.eqb_spec (if binned then 1 else bin_size st) 0); [done|].
  rewrite HN. simpl.
  destruct (N.ltb_spec 1 (n / (if binned then 1 else bin_size st)));
    [done | lia].
Qed.

Lemma init_or_verify_N_too_few (n : N) binned st :
  (if binned then 1 else bin_size st) ≠ 0 →
  N_bins st = 0 → n / (if binned then 1 else bin_size st) ≤ 1 →
  init_or_verify_N n binned st = Throw (runtime_error less_than_2_bins) st.
Proof.
  intros Hd HN Hn. unfold init_or_verify_N.
  destruct (N.eqb_spec (if binned then 1 else bin_size st) 0); [done|].
  rewrite HN. simpl.
  destruct (N.ltb_spec 1 (n / (if binned then 1 else bin_size st)));
    [lia | done].
Qed.

Lemma init_or_verify_N_mismatch (n : N) binned st :
  (if binned then 1 else bin_size st) ≠ 0 →
  N_bins st ≠ 0 → n / (if binned then 1 else bin_size st) ≠ N_bins st →
  init_or_verify_N n binned st
  = Throw (runtime_error different_number_of_bins) st.
Proof.
  intros Hd HN Hn. unfold init_or_verify_N.
  destruct (N.eqb_spec (if binned then 1 else bin_size st) 0); [done|].
  destruct (N.eqb_spec (N_bins st) 0); [done|].
  destruct (N.eqb_spec (n / (if binned then 1 else bin_size st)) (N_bins st));
    done.
Qed.

Lemma init_or_verify_N_match (n : N) binned st :
  (if binned then 1 else bin_size st) ≠ 0 →
  N_bins st ≠ 0 → n / (if binned then 1 else bin_size st) = N_bins st →
  init_or_verify_N n binned st = Ok st.
Proof.
  intros Hd HN Hn. unfold init_or_verify_N.
  destruct (N.eqb_spec (if binned then 1 else bin_size st) 0); [done|].
  destruct (N.eqb_spec (N_bins st) 0); [done|].
  destruct (N.eqb_spec (n / (if binned then 1 else bin_size st)) (N_bins st));
    done.
Qed.

(** What a normal return of [init_or_verify_N] tells: only [N_bins]
    may have changed, and it now is the bin count of the vector. *)
Lemma init_or_verify_N_Ok (n : N) binned st st1 :
  init_or_verify_N n binned st = Ok st1 →
  (if binned then 1 else bin_size st) ≠ 0
  ∧ st1 = set_N_bins (n / (if binned then 1 else bin_size st)) st
  ∧ N_bins st1 ≠ 0
  ∧ (N_bins st = 0 ∨ N_bins st = N_bins st1).
Proof.
  unfold init_or_verify_N.
  destruct (N.eqb_spec (if binned then 1 else bin_size st) 0) as [|Hd]; [done|].
  destruct (N.eqb_spec (N_bins st) 0) as [HN|HN].
  - destruct (N.ltb_spec 1 (n / (if binned then 1 else bin_size st)));
      [|done].
    intros [= <-]. simpl. repeat split; [done | lia | by left].
  - destruct (N.eqb_spec (n / (if binned then 1 else bin_size st)) (N_bins st))
      as [Heq|]; [|done].
    simpl. intros [= <-]. repeat split; [done | | done | by right].
    rewrite Heq. by destruct st.
Qed.

(** A throwing [init_or_verify_N] has not touched the store. *)
Lemma init_or_verify_N_Throw (n : N) binned st e st1 :
  init_or_verify_N n binned st = Throw e st1 → st1 = st.
Proof.
  unfold init_or_verify_N.
  repeat case_match; try done; by intros [= _ <-].
Qed.

(** *** The loops of [resample] *)

Lemma mapM_total {A B} (f : A → option B) (g : A → B) (l : list A) :
  (∀ x, x ∈ l → f x = Some (g x)) → mapM f l = Some (g <$> l).
Proof.
  induction l as [|a l IH]; intros Hf; [done|].
  simpl. rewrite (Hf a) by left. simpl.
  rewrite IH by (intros x Hx; apply Hf; by right). done.
Qed.

Lemma red_sample_loop xs (s : T) (lo : N) (n : nat) :
  (N.to_nat lo + n ≤ length xs)%nat →
  foldl (λ red_sample i,
           r ← red_sample; x ← xs !! N.to_nat i; Some (sub r x))
        (Some s) ((λ j, lo + N.of_nat j) <$> seq 0 n)
  = Some (foldl sub s (take n (drop (N.to_nat lo) xs))).
Proof.
  induction n as [|n IH]; intros Hn; [done|].
  rewrite seq_S, fmap_app, foldl_app, IH by lia. simpl.
  destruct (lookup_lt_is_Some_2 xs (N.to_nat lo + n)) as [x Hx]; [lia|].
  replace (N.to_nat (lo + N.of_nat n)) with (N.to_nat lo + n)%nat by lia.
  rewrite Hx. simpl.
  rewrite (take_S_r _ _ x) by (by rewrite lookup_drop).
  by rewrite foldl_app.
Qed.

(** Inside the vector the inner loop has no undefined behaviour and
    subtracts the samples of bin [b] one after the other. *)
Lemma red_sample_of_in_range xs (s : T) (bs b : N) :
  (b + 1) * bs ≤ size xs →
  red_sample_of xs s bs b = Some (foldl sub s (bin xs bs b)).
Proof.
  intros Hb. unfold red_sample_of, range, bin, size in *.
  replace (N.to_nat ((b + 1) * bs - b * bs)) with (N.to_nat bs) by lia.
  apply red_sample_loop. lia.
Qed.

Lemma red_samples_loop xs (bs nb : N) :
  nb * bs ≤ size xs →
  mapM (λ b, r ← red_sample_of xs (sum_of xs) bs b;
             Some (div r (of_size (size_sub (size xs) bs))))
       (range 0 nb)
  = Some (reduced_samples_of xs bs nb).
Proof.
  intros Hnb. unfold reduced_samples_of. apply mapM_total.
  intros b Hb%elem_of_range.
  rewrite red_sample_of_in_range by nia. done.
Qed.

(** [resample] without its loops: with a bin size other than zero
    the call has no undefined behaviour, and what it stores is
    [reduced_samples_of] and the mean. *)
Lemma resample_eq k xs st :
  bin_size st ≠ 0 →
  resample k xs st =
  if not_present k st then
    match init_or_verify_N (size xs) false st with
    | Ok st1 =>
        Ok (set_reduced_samples k
              (reduced_samples_of xs (bin_size st) (size xs / bin_size st))
              (set_mu k (div (sum_of xs) (of_size (size xs))) st1))
    | o => o
    end
  else Ok st.
Proof.
  intros Hbs. unfold resample. destruct (not_present k st); [|done].
  destruct (init_or_verify_N (size xs) false st) as [st1| |] eqn:Hinit;
    [|done..].
  apply init_or_verify_N_Ok in Hinit as (_ & -> & _ & _). simpl.
  rewrite red_samples_loop; [done|].
  rewrite N.mul_comm. by apply N.Div0.mul_div_le.
Qed.

(** *** Registration: bin count rules, failure, duplicates *)

Lemma add_resampled_eq k v m st :
  add_resampled k v m st =
  if not_present k st then
    match init_or_verify_N (size v) true st with
    | Ok st1 => Ok (set_mu k m (set_reduced_samples k v st1))
    | o => o
    end
  else Ok st.
Proof. reflexivity. Qed.

(** C4: for a key that is not yet present, [resample] (with a bin
    size other than zero, so that [size() / bin_size] is defined)
    and [add_resampled] follow the bin count rules: with [N_bins]
    unset the count of the new dataset becomes [N_bins] when it is
    above 1 and the call throws the "less than 2 bins" error
    otherwise; with [N_bins] set the call throws unless the counts
    agree.  [resample] counts [size() / bin_size], [add_resampled]
    counts [size()].  Every call that does not return normally throws
    and leaves the store as it was. *)
Theorem registration_bin_count_rules k xs v m st :
  not_present k st = true →
  (bin_size st ≠ 0 →
     (N_bins st = 0 → 1 < size xs / bin_size st →
        ∃ st', resample k xs st = Ok st'
               ∧ N_bins st' = size xs / bin_size st)
   ∧ (N_bins st = 0 → size xs / bin_size st ≤ 1 →
        resample k xs st = Throw (runtime_error less_than_2_bins) st)
   ∧ (N_bins st ≠ 0 → size xs / bin_size st ≠ N_bins st →
        resample k xs st = Throw (runtime_error different_number_of_bins) st)
   ∧ (N_bins st ≠ 0 → size xs / bin_size st = N_bins st →
        ∃ st', resample k xs st = Ok st' ∧ N_bins st' = N_bins st)
   ∧ ((∃ st', resample k xs st = Ok st')
      ∨ (∃ e, resample k xs st = Throw e st)))
  ∧ (N_bins st = 0 → 1 < size v →
        ∃ st', add_resampled k v m st = Ok st' ∧ N_bins st' = size v)
  ∧ (N_bins st = 0 → size v ≤ 1 →
        add_resampled k v m st = Throw (runtime_error less_than_2_bins) st)
  ∧ (N_bins st ≠ 0 → size v ≠ N_bins st →
        add_resampled k v m st
        = Throw (runtime_error different_number_of_bins) st)
  ∧ (N_bins st ≠ 0 → size v = N_bins st →
        ∃ st', add_resampled k v m st = Ok st' ∧ N_bins st' = N_bins st)
  ∧ ((∃ st', add_resampled k v m st = Ok st')
     ∨ (∃ e, add_resampled k v m st = Throw e st)).
Proof.
  intros Hk. split.
  - intros Hbs. rewrite resample_eq, Hk by done.
    pose proof (init_or_verify_N_first (size xs) false st Hbs) as H1.
    pose proof (init_or_verify_N_too_few (size xs) false st Hbs) as H2.
    pose proof (init_or_verify_N_mismatch (size xs) false st Hbs) as H3.
    pose proof (init_or_verify_N_match (size xs) false st Hbs) as H4.
    split_and!.
    + intros HN Hn. rewrite H1 by done. eauto.
    + intros HN Hn. by rewrite H2.
    + intros HN Hn. by rewrite H3.
    + intros HN Hn. rewrite H4 by done. eauto.
    + destruct (decide (N_bins st = 0)) as [HN|HN].
      * destruct (decide (1 < size xs / bin_size st)).
        -- rewrite H1 by done. eauto.
        -- rewrite H2 by (done || lia). eauto.
      * destruct (decide (size xs / bin_size st = N_bins st)).
        -- rewrite H4 by done. eauto.
        -- rewrite H3 by done. eauto.
  - rewrite add_resampled_eq, Hk.
    assert ((if true then 1 else bin_size st) ≠ 0) as Hd by done.
    pose proof (init_or_verify_N_first (size v) true st Hd) as H1.
    pose proof (init_or_verify_N_too_few (size v) true st Hd) as H2.
    pose proof (init_or_verify_N_mismatch (size v) true st Hd) as H3.
    pose proof (init_or_verify_N_match (size v) true st Hd) as H4.
    simpl in H1, H2, H3, H4. rewrite N.div_1_r in H1, H2, H3, H4.
    split_and!.
    + intros HN Hn. rewrite H1 by done. eauto.
    + intros HN Hn. by rewrite H2.
    + intros HN Hn. by rewrite H3.
    + intros HN Hn. rewrite H4 by done. eauto.
    + destruct (decide (N_bins st = 0)) as [HN|HN].
      * destruct (decide (1 < size v)).
        -- rewrite H1 by done. eauto.
        -- rewrite H2 by (done || lia). eauto.
      * destruct (decide (size v = N_bins st)).
        -- rewrite H4 by done. eauto.
        -- rewrite H3 by done. eauto.
Qed.

(** C5: on a store that already holds [k] every registration and
    composition under [k] returns normally and leaves the whole
    store as it is, whatever the other arguments are. *)
Theorem present_key_is_noop k st :
  is_Some (Xs_reduced_samples st !! k) ∨ is_Some (Xs_mu st !! k) →
  (∀ xs, resample k xs st = Ok st)
  ∧ (∀ v m, add_resampled k v m st = Ok st)
  ∧ (∀ F ks, add_function k F ks st = Ok st)
  ∧ (∀ (n : nat) (F : nfun n) (ks : vec K n),
       add_function_pack k F ks st = Ok st).
Proof.
  intros Hk%not_present_false.
  unfold resample, add_resampled, add_function, add_function_pack.
  rewrite Hk. done.
Qed.

(** *** Queries *)

Lemma at_Some {V} (m : gmap K V) k (x : V) : m !! k = Some x → at_ m k = Ret x.
Proof. unfold at_. by intros ->. Qed.

Lemma at_None {V} (m : gmap K V) k : m !! k = None → at_ m k = Raise out_of_range.
Proof. unfold at_. by intros ->. Qed.

(** The accumulation loop of [sigma] when the mean is there. *)
Lemma sigma_loop k st (m : T) v (a : double) :
  Xs_mu st !! k = Some m →
  foldl (λ acc d,
           result_bind acc (λ sigma,
           result_bind (at_ (Xs_mu st) k) (λ m,
           Ret (double_add sigma (pow (sub d m) (of_int 2))))))
        (Ret a) v
  = Ret (foldl double_add a (squared_deviations v m)).
Proof.
  intros Hm. rewrite (at_Some _ _ _ Hm). unfold squared_deviations.
  rewrite foldl_fmap. revert a.
  induction v as [|d v IH]; intros a; [done|]. simpl. apply IH.
Qed.

(** [sigma] and [jackknife] on a key with a series and a mean: what
    is left is the division. *)
Lemma sigma_registered k st v (m : T) :
  Xs_reduced_samples st !! k = Some v → Xs_mu st !! k = Some m →
  sigma k st
  = result_bind (bins_ratio st) (λ ratio,
      Ret (of_double
             (double_sqrt
                (double_mul (to_double ratio)
                            (double_sum (squared_deviations v m)))))).
Proof.
  intros Hv Hm. unfold sigma.
  rewrite (at_Some _ _ _ Hv). simpl.
  by rewrite (sigma_loop _ _ _ _ _ Hm).
Qed.

Lemma jackknife_registered k (mu_X sigma_X : T) st v (m : T) :
  Xs_reduced_samples st !! k = Some v → Xs_mu st !! k = Some m →
  jackknife k mu_X sigma_X st
  = result_bind (bins_ratio st) (λ ratio,
      Ret (true, m,
           of_double
             (double_sqrt
                (to_double (mul ratio (sum_in_T (squared_deviations v m))))))).
Proof.
  intros Hv Hm. unfold jackknife, at_. rewrite Hv, Hm. simpl.
  unfold sum_in_T, squared_deviations. by rewrite foldl_fmap.
Qed.

Lemma bins_ratio_cases st :
  (div_undefined (of_size (size_sub (N_bins st) 1)) (of_size (N_bins st)) = false
   ∧ bins_ratio st
     = Ret (div (of_size (size_sub (N_bins st) 1)) (of_size (N_bins st))))
  ∨ (div_undefined (of_size (size_sub (N_bins st) 1)) (of_size (N_bins st)) = true
     ∧ bins_ratio st = Undef).
Proof. unfold bins_ratio. destruct (div_undefined _ _); [by right | by left]. Qed.

(** Where the conversions between [T] and [double] lose nothing, the
    accumulator of [jackknife] holds the sum that [sigma] holds. *)
Lemma sum_in_T_double_sum (l : list double) :
  (∀ y, to_double (of_double y) = y) →
  to_double (of_int 0) = double_zero →
  to_double (sum_in_T l) = double_sum l.
Proof.
  intros Hconv Hzero. unfold sum_in_T, double_sum. rewrite <- Hzero.
  generalize (of_int 0). induction l as [|x l IH]; intros s; [done|].
  simpl. by rewrite IH, Hconv.
Qed.

(** X16: for a key with a series and a mean, on a store where the
    division [(T)(N_bins - 1) / (T) N_bins] is defined, [sigma]
    returns
    [(T) sqrt((double)((T)(N_bins - 1) / (T) N_bins) * sum_i pow(replicate_i - mean, (T) 2))],
    the squares and their sum being [double]s; the subtraction
    [N_bins - 1] is the one of [std::size_t] (the plain difference once
    [N_bins] is at least 1).  Where the division is undefined (an
    integral [T] and [(T) N_bins] zero) [sigma] has undefined
    behaviour.  For a key that is not in the store [sigma] throws. *)
Theorem sigma_spec k st :
  (∀ v (m : T),
     Xs_reduced_samples st !! k = Some v → Xs_mu st !! k = Some m →
     (div_undefined (of_size (size_sub (N_bins st) 1)) (of_size (N_bins st))
      = false →
      sigma k st
      = Ret (of_double
               (double_sqrt
                  (double_mul
                     (to_double (div (of_size (size_sub (N_bins st) 1))
                                     (of_size (N_bins st))))
                     (double_sum (squared_deviations v m))))))
     ∧ (div_undefined (of_size (size_sub (N_bins st) 1)) (of_size (N_bins st))
        = true →
        sigma k st = Undef)
     ∧ (1 ≤ N_bins st → size_sub (N_bins st) 1 = N_bins st - 1))
  ∧ (Xs_reduced_samples st !! k = None → sigma k st = Raise out_of_range).
Proof.
  split.
  - intros v m Hv Hm. rewrite (sigma_registered _ _ _ _ Hv Hm).
    split_and!; [| |apply size_sub_le].
    + intros Hdef.
      destruct (bins_ratio_cases st) as [[_ ->]|[Hundef _]]; [done|congruence].
    + intros Hundef.
      destruct (bins_ratio_cases st) as [[Hdef _]|[_ ->]]; [congruence|done].
  - intros Hv. unfold sigma. by rewrite (at_None _ _ Hv).
Qed.

(** X17: [jackknife] never throws.  For a key that is not in both
    maps it returns [false] and leaves [mu_X] and [sigma_X] as they
    were.  For a key in both maps, on a store where the division
    [(T)(N_bins - 1) / (T) N_bins] is defined, it returns [true], the
    stored mean in [mu_X], and in [sigma_X]
    [(T) sqrt((T)(N_bins - 1) / (T) N_bins * s)] where [s] is the sum of
    the squares accumulated in [T]; that is the value [sigma] returns
    wherever the conversions between [T] and [double] lose nothing
    ([T = double]).  Where the division is undefined it has undefined
    behaviour.  The member function is [const]: there is no store
    after the call other than the one before it. *)
Theorem jackknife_spec k (mu_X sigma_X : T) st :
  (∀ e, jackknife k mu_X sigma_X st ≠ Raise e)
  ∧ (∀ v (m : T),
       Xs_reduced_samples st !! k = Some v → Xs_mu st !! k = Some m →
       (div_undefined (of_size (size_sub (N_bins st) 1)) (of_size (N_bins st))
        = false →
        jackknife k mu_X sigma_X st
        = Ret (true, m,
               of_double
                 (double_sqrt
                    (to_double
                       (mul (div (of_size (size_sub (N_bins st) 1))
                                 (of_size (N_bins st)))
                            (sum_in_T (squared_deviations v m)))))))
       ∧ (div_undefined (of_size (size_sub (N_bins st) 1)) (of_size (N_bins st))
          = true →
          jackknife k mu_X sigma_X st = Undef)
       ∧ ((∀ y, to_double (of_double y) = y) →
          to_double (of_int 0) = double_zero →
          (∀ a b : T, to_double (mul a b) = double_mul (to_double a) (to_double b)) →
          ∀ s, sigma k st = Ret s →
               jackknife k mu_X sigma_X st = Ret (true, m, s)))
  ∧ (Xs_reduced_samples st !! k = None ∨ Xs_mu st !! k = None →
       jackknife k mu_X sigma_X st = Ret (false, mu_X, sigma_X)).
Proof.
  split_and!.
  - intros e. unfold jackknife, at_.
    destruct (Xs_reduced_samples st !! k) as [v|] eqn:Hv;
      destruct (Xs_mu st !! k) as [m|] eqn:Hm; simpl; try done.
    unfold bins_ratio. by destruct (div_undefined _ _).
  - intros v m Hv Hm.
    rewrite (jackknife_registered _ _ _ _ _ _ Hv Hm).
    rewrite (sigma_registered _ _ _ _ Hv Hm).
    split_and!.
    + intros Hdef.
      destruct (bins_ratio_cases st) as [[_ ->]|[Hundef _]]; [done|congruence].
    + intros Hundef.
      destruct (bins_ratio_cases st) as [[Hdef _]|[_ ->]]; [congruence|done].
    + intros Hconv Hzero Hmul s.
      destruct (bins_ratio st) as [ratio| |]; simpl; [|done..].
      intros [= <-]. by rewrite Hmul, sum_in_T_double_sum.
  - unfold jackknife. intros [-> | ->]; [done|].
    by rewrite andb_false_r.
Qed.

(** *** [remove] *)

(** C7: [remove k] erases the mean and the series of [k], and is
    the identity on a store that does not hold [k]; afterwards [mu],
    [sigma] and [samples] throw on [k], and for every other key the
    stored mean and series, and with them the three queries, are what
    they were. *)
Theorem remove_spec k st :
  Xs_mu (remove k st) !! k = None
  ∧ Xs_reduced_samples (remove k st) !! k = None
  ∧ (not_present k st = true → remove k st = st)
  ∧ mu k (remove k st) = Raise out_of_range
  ∧ sigma k (remove k st) = Raise out_of_range
  ∧ samples k (remove k st) = Raise out_of_range
  ∧ (∀ k', k' ≠ k →
       Xs_mu (remove k st) !! k' = Xs_mu st !! k'
       ∧ Xs_reduced_samples (remove k st) !! k' = Xs_reduced_samples st !! k'
       ∧ mu k' (remove k st) = mu k' st
       ∧ sigma k' (remove k st) = sigma k' st
       ∧ samples k' (remove k st) = samples k' st).
Proof.
  assert (Xs_mu (remove k st) !! k = None) as Hm
    by apply lookup_delete_eq.
  assert (Xs_reduced_samples (remove k st) !! k = None) as Hv
    by apply lookup_delete_eq.
  split_and!; try done.
  - intros [Hv' Hm']%not_present_true. destruct st as [nb bs red mus].
    unfold remove. simpl in *. by rewrite !delete_id.
  - by apply at_None.
  - unfold sigma. by rewrite (at_None _ _ Hv).
  - by apply at_None.
  - intros k' Hne.
    assert (Xs_mu (remove k st) !! k' = Xs_mu st !! k') as Hm'
      by (by apply lookup_delete_ne).
    assert (Xs_reduced_samples (remove k st) !! k'
            = Xs_reduced_samples st !! k') as Hv'
      by (by apply lookup_delete_ne).
    split_and!; try done.
    + unfold mu, at_. by rewrite Hm'.
    + unfold sigma, at_, bins_ratio. rewrite Hv', Hm'. done.
    + unfold samples, at_. by rewrite Hv'.
Qed.

(** *** [add_function] *)

(** Row [i] of the argument series: what the inner loop of
    [add_function] collects in [args_red_samples]. *)
Lemma args_red_samples_row (red : gmap K (list T)) (ks : list K) (i : nat) row :
  mapM (λ key, v ← red !! key; v !! i) ks = Some row →
  Forall2 (λ key x, ∃ v, at_ red key = Ret v ∧ v !! i = Some x) ks row.
Proof.
  intros Hrow%mapM_Some_1. eapply Forall2_impl; [done|].
  simpl. intros key x (v & Hv & Hx)%bind_Some.
  exists v. by rewrite (at_Some _ _ _ Hv).
Qed.

(** C3: [add_function] under a key that is not present.  When the
    call returns normally, the stored mean is [F] of the argument
    means and replicate [i], for each [i] below [N_bins], is [F] of
    the [i]-th replicates of the arguments, in the order of the keys;
    the call does return normally when every argument key has a mean
    and a series of at least [N_bins] entries.  When some argument
    key has no mean the call throws [std::out_of_range] and the
    store is as before. *)
Theorem add_function_spec (Fkey : K) (F : list T → T) (ks : list K) st :
  not_present Fkey st = true →
  (∀ st', add_function Fkey F ks st = Ok st' →
     N_bins st' = N_bins st
     ∧ ∃ args_mu,
         Forall2 (λ key m, mu key st = Ret m) ks args_mu
         ∧ mu Fkey st' = Ret (F args_mu)
         ∧ ∃ reps,
             samples Fkey st' = Ret reps
             ∧ size reps = N_bins st
             ∧ ∀ i, i < N_bins st →
                 ∃ row,
                   Forall2 (λ key x, ∃ v, samples key st = Ret v
                                          ∧ v !! N.to_nat i = Some x) ks row
                   ∧ reps !! N.to_nat i = Some (F row))
  ∧ ((∀ key, key ∈ ks →
        is_Some (Xs_mu st !! key)
        ∧ ∃ v, Xs_reduced_samples st !! key = Some v ∧ N_bins st ≤ size v) →
     ∃ st', add_function Fkey F ks st = Ok st')
  ∧ ((∃ key, key ∈ ks ∧ Xs_mu st !! key = None) →
     add_function Fkey F ks st = Throw out_of_range st).
Proof.
  intros Hk. unfold add_function. rewrite Hk. split_and!.
  - intros st'.
    destruct (mapM (λ key, Xs_mu st !! key) ks) as [args_mu|] eqn:Hmu;
      [|done].
    simpl.
    destruct (mapM _ (range 0 (N_bins st))) as [reps|] eqn:Hreps; [|done].
    intros [= <-]. split; [done|]. exists args_mu. split_and!.
    + apply mapM_Some_1 in Hmu. eapply Forall2_impl; [done|].
      simpl. intros key m Hm. by apply at_Some.
    + apply at_Some. simpl. apply lookup_insert_eq.
    + exists reps. split_and!.
      * apply at_Some. simpl. apply lookup_insert_eq.
      * apply length_mapM in Hreps. rewrite range_length in Hreps.
        unfold size. lia.
      * intros i Hi. apply mapM_Some_1 in Hreps.
        assert (range 0 (N_bins st) !! N.to_nat i = Some i) as Hrange.
        { rewrite range_0_lookup by lia. f_equal. lia. }
        destruct (Forall2_lookup_l _ _ _ _ _ Hreps Hrange)
          as (y & Hy & (row & Hrow & [= <-])%bind_Some).
        exists row. split; [|done].
        by apply args_red_samples_row.
  - intros Hargs.
    destruct (mapM (λ key, Xs_mu st !! key) ks) as [args_mu|] eqn:Hmu.
    + simpl.
      destruct (mapM _ (range 0 (N_bins st))) as [reps|] eqn:Hreps;
        [by eauto|].
      apply mapM_None_1, Exists_exists in Hreps
        as (i & Hi%elem_of_range & Hrow).
      apply bind_None in Hrow as [Hrow'|(row & _ & ?)]; [|done].
      apply mapM_None_1, Exists_exists in Hrow' as (key & Hkey & Hnone).
      destruct (Hargs key Hkey) as (_ & v & Hv & Hlen).
      rewrite Hv in Hnone. simpl in Hnone.
      apply lookup_ge_None in Hnone. unfold size in Hlen. lia.
    + apply mapM_None_1, Exists_exists in Hmu as (key & Hkey & Hnone).
      destruct (Hargs key Hkey) as ([m Hm] & _). congruence.
  - intros (key & Hkey & Hnone).
    rewrite (mapM_None_2 (λ key, Xs_mu st !! key) ks); [done|].
    apply Exists_exists. eauto.
Qed.

(** The pack expansion of the variadic overload against the loop of
    the vector overload. *)
Lemma apply_pack_mapM (look : K → option T) {n} (ks : vec K n) :
  ∀ (G : list T → T) (F : nfun n),
    (∀ args : vec T n, G (vec_to_list args) = napply args F) →
    apply_pack look ks F = (args ← mapM look (vec_to_list ks); Some (G args)).
Proof.
  induction ks as [|key n ks IH]; intros G F HGF.
  - simpl. f_equal. symmetry. apply (HGF [#]).
  - simpl. destruct (look key) as [x|]; [|done]. simpl.
    rewrite (IH (λ l, G (x :: l)) (F x)).
    + by destruct (mapM look (vec_to_list ks)).
    + intros args. apply (HGF (x ::: args)).
Qed.

(** C9: called with the same keys, and with a function of a
    sequence and a function of [n] parameters that agree on every
    [n] values, the vector overload and the variadic overload of
    [add_function] have the same outcome: the same store, hence the
    same stored mean and series, or the same exception. *)
Theorem add_function_overloads_agree {n : nat} (Fkey : K)
    (G : list T → T) (F : nfun n) (ks : vec K n) st :
  (∀ args : vec T n, G (vec_to_list args) = napply args F) →
  add_function Fkey G (vec_to_list ks) st = add_function_pack Fkey F ks st.
Proof.
  intros HGF. unfold add_function, add_function_pack.
  destruct (not_present Fkey st); [|done].
  rewrite (apply_pack_mapM _ ks G F HGF).
  destruct (mapM _ (vec_to_list ks)) as [args_mu|]; [|done]. simpl.
  erewrite (mapM_ext _ _ (range 0 (N_bins st))); [done|].
  intros i. simpl. symmetry. by apply apply_pack_mapM.
Qed.

(** *** [N_bins] and [bin_size] along calls *)

Lemma resample_store_after k xs st st' :
  store_after (resample k xs st) = Some st' →
  st' = st
  ∨ (not_present k st = true ∧ bin_size st ≠ 0
     ∧ (N_bins st = 0 ∨ N_bins st = size xs / bin_size st)
     ∧ size xs / bin_size st ≠ 0
     ∧ st' = set_reduced_samples k
               (reduced_samples_of xs (bin_size st) (size xs / bin_size st))
               (set_mu k (div (sum_of xs) (of_size (size xs)))
                  (set_N_bins (size xs / bin_size st) st))).
Proof.
  destruct (decide (bin_size st = 0)) as [Hbs|Hbs].
  - unfold resample, init_or_verify_N. rewrite Hbs. simpl.
    destruct (not_present k st); [done|]. intros [= <-]. by left.
  - rewrite resample_eq by done.
    destruct (not_present k st); [|intros [= <-]; by left].
    destruct (init_or_verify_N (size xs) false st) as [st1|e st1|] eqn:Hinit;
      simpl; [| |done].
    + apply init_or_verify_N_Ok in Hinit as (_ & -> & Hnz & HN).
      simpl in *. intros [= <-]. right. by split_and!.
    + apply init_or_verify_N_Throw in Hinit as ->. intros [= <-]. by left.
Qed.

Lemma add_resampled_store_after k v m st st' :
  store_after (add_resampled k v m st) = Some st' →
  st' = st
  ∨ (not_present k st = true
     ∧ (N_bins st = 0 ∨ N_bins st = size v)
     ∧ size v ≠ 0
     ∧ st' = set_mu k m (set_reduced_samples k v (set_N_bins (size v) st))).
Proof.
  unfold add_resampled.
  destruct (not_present k st); [|intros [= <-]; by left].
  destruct (init_or_verify_N (size v) true st) as [st1|e st1|] eqn:Hinit;
    simpl; [| |done].
  - apply init_or_verify_N_Ok in Hinit as (_ & -> & Hnz & HN).
    simpl in *. rewrite N.div_1_r in *. intros [= <-]. right.
    by split_and!.
  - apply init_or_verify_N_Throw in Hinit as ->. intros [= <-]. by left.
Qed.

Lemma add_function_store_after (Fkey : K) (F : list T → T) (ks : list K) st st' :
  store_after (add_function Fkey F ks st) = Some st' →
  N_bins st' = N_bins st ∧ bin_size st' = bin_size st.
Proof.
  unfold add_function. repeat case_match; by intros [= <-].
Qed.

Lemma add_function_pack_store_after {n : nat} (Fkey : K) (F : nfun n)
    (ks : vec K n) st st' :
  store_after (add_function_pack Fkey F ks st) = Some st' →
  N_bins st' = N_bins st ∧ bin_size st' = bin_size st.
Proof.
  unfold add_function_pack. repeat case_match; by intros [= <-].
Qed.

Lemma run_op_N_bins (o : op) st st' :
  store_after (run_op o st) = Some st' →
  bin_size st' = bin_size st ∧ (N_bins st = 0 ∨ N_bins st' = N_bins st).
Proof.
  destruct o as [k xs|k v m|Fkey F ks|n Fkey F ks|k]; simpl.
  - intros [->|(_ & _ & HN & _ & ->)]%resample_store_after; simpl.
    + split; [done | by right].
    + split; [done|]. destruct HN as [HN|HN]; [by left | by right].
  - intros [->|(_ & HN & _ & ->)]%add_resampled_store_after; simpl.
    + split; [done | by right].
    + split; [done|]. destruct HN as [HN|HN]; [by left | by right].
  - intros [-> ->]%add_function_store_after. split; [done | by right].
  - intros [-> ->]%add_function_pack_store_after. split; [done | by right].
  - intros [= <-]. split; [done | by right].
Qed.

Lemma run_ops_N_bins (ops : list op) st st' :
  N_bins st ≠ 0 → run_ops ops st = Some st' →
  bin_size st' = bin_size st ∧ N_bins st' = N_bins st.
Proof.
  revert st. induction ops as [|o ops IH]; intros st HN; simpl.
  - by intros [= <-].
  - intros (st1 & Hst1 & Hrest)%bind_Some.
    apply run_op_N_bins in Hst1 as [Hbs [?|HN1]]; [done|].
    apply IH in Hrest as [-> ->]; [done | congruence].
Qed.

(** C10: a successful registration of a new key leaves [N_bins]
    set, and once [N_bins] is set no call, and no sequence of calls,
    changes it, whatever the call does to the maps; a store whose
    maps were emptied by [remove] is no exception, so that a new
    dataset with another bin count is refused with the store left as
    it is. *)
Theorem N_bins_never_changes st :
  (∀ st0 k xs, not_present k st0 = true → resample k xs st0 = Ok st →
     N_bins st ≠ 0)
  ∧ (∀ st0 k v m, not_present k st0 = true → add_resampled k v m st0 = Ok st →
     N_bins st ≠ 0)
  ∧ (N_bins st ≠ 0 →
       (∀ (o : op) st', store_after (run_op o st) = Some st' →
          N_bins st' = N_bins st)
       ∧ (∀ (ops : list op) st', run_ops ops st = Some st' →
          N_bins st' = N_bins st)
       ∧ (∀ k, N_bins (remove k st) = N_bins st)
       ∧ (∀ k xs, not_present k st = true → bin_size st ≠ 0 →
            size xs / bin_size st ≠ N_bins st →
            resample k xs st
            = Throw (runtime_error different_number_of_bins) st)
       ∧ (∀ k v m, not_present k st = true → size v ≠ N_bins st →
            add_resampled k v m st
            = Throw (runtime_error different_number_of_bins) st)).
Proof.
  split_and!.
  - intros st0 k xs Hk Hres. unfold resample in Hres.
    rewrite Hk in Hres.
    destruct (init_or_verify_N (size xs) false st0) as [st1| |] eqn:Hinit;
      [|done..].
    apply init_or_verify_N_Ok in Hinit as (_ & _ & Hnz & _).
    destruct (mapM _ _); [|done]. by injection Hres as <-.
  - intros st0 k v m Hk Hres. unfold add_resampled in Hres.
    rewrite Hk in Hres.
    destruct (init_or_verify_N (size v) true st0) as [st1| |] eqn:Hinit;
      [|done..].
    apply init_or_verify_N_Ok in Hinit as (_ & _ & Hnz & _).
    by injection Hres as <-.
  - intros HN. split_and!.
    + intros o st' [_ [?|?]]%run_op_N_bins; done.
    + intros ops st' [_ ?]%run_ops_N_bins; done.
    + done.
    + intros k xs Hk Hbs Hne. rewrite resample_eq, Hk by done.
      by rewrite init_or_verify_N_mismatch.
    + intros k v m Hk Hne. rewrite add_resampled_eq, Hk.
      rewrite init_or_verify_N_mismatch; [done..|].
      simpl. by rewrite N.div_1_r.
Qed.

(** *** What [resample] stores *)


Lemma reduced_samples_of_length xs (bs nb : N) :
  size (reduced_samples_of xs bs nb) = nb.
Proof.
  unfold reduced_samples_of, size.
  rewrite length_fmap, range_length. lia.
Qed.



Section Exact.
(** The two laws of exact arithmetic that turn the repeated
    [red_sample -= Xsamples[i]] into one subtraction of the bin's
    sum.  Integers and rationals have them; floating-point
    subtraction has the first and only approximates the second. *)
Hypothesis sub_zero : ∀ a : T, sub a (of_int 0) = a.
Hypothesis sub_sub : ∀ a s x : T, sub (sub a s) x = sub a (add s x).



End Exact.

(** *** Joint presence along calls *)

Lemma create_well_formed (bs : N) : well_formed (create bs : Store K T).
Proof.
  split; [|done]. intros key. left. unfold create. simpl.
  by rewrite !lookup_empty.
Qed.

(** Entering [k] with a mean and a series of [N_bins] entries. *)
Lemma well_formed_insert k v (m : T) st0 st :
  well_formed st0 →
  N_bins st0 = 0 ∨ N_bins st0 = N_bins st →
  N_bins st ≠ 0 →
  Xs_mu st = Xs_mu st0 → Xs_reduced_samples st = Xs_reduced_samples st0 →
  size v = N_bins st →
  well_formed (set_reduced_samples k v (set_mu k m st)).
Proof.
  intros [Hjoint Hempty] HN Hnz Hmu Hred Hv. split; [|done].
  intros key. simpl. rewrite Hmu, Hred.
  destruct (decide (k = key)) as [->|Hne].
  - right. rewrite !lookup_insert_eq. eauto.
  - rewrite !lookup_insert_ne by done.
    destruct (Hjoint key) as [?|(Hm & v' & Hv' & Hlen)]; [by left|].
    right. split; [done|]. exists v'. split; [done|].
    destruct HN as [HN|HN]; [|congruence].
    destruct (Hempty HN) as [_ Hred0]. by rewrite Hred0 in Hv'.
Qed.

Lemma remove_well_formed k st : well_formed st → well_formed (remove k st).
Proof.
  intros [Hjoint Hempty]. split.
  - intros key. simpl. destruct (decide (k = key)) as [->|Hne].
    + left. by rewrite !lookup_delete_eq.
    + rewrite !lookup_delete_ne by done. apply Hjoint.
  - simpl. intros [-> ->]%Hempty. by rewrite !delete_empty.
Qed.

(** The outer loop of [add_function] when every row is there. *)
Lemma rows_succeed (f : N → option T) (nb : N) :
  (∀ i, i < nb → is_Some (f i)) →
  ∃ reps, mapM f (range 0 nb) = Some reps ∧ size reps = nb.
Proof.
  intros Hf. destruct (mapM_is_Some_2 f (range 0 nb)) as [reps Hreps].
  - apply Forall_forall. intros i Hi%elem_of_range. apply Hf. lia.
  - exists reps. split; [done|]. apply length_mapM in Hreps.
    rewrite range_length in Hreps. unfold size. lia.
Qed.

(** In a well-formed store a key with a mean has entry [i] for
    every [i] below [N_bins]. *)
Lemma well_formed_entry st key (i : N) :
  well_formed st → is_Some (Xs_mu st !! key) → i < N_bins st →
  is_Some (v ← Xs_reduced_samples st !! key; v !! N.to_nat i).
Proof.
  intros [Hjoint _] Hm Hi.
  destruct (Hjoint key) as [[Hnone _]|(_ & v & -> & Hv)].
  - rewrite Hnone in Hm. by destruct Hm.
  - simpl. apply lookup_lt_is_Some_2. unfold size in Hv. lia.
Qed.

Lemma well_formed_has_mean st key :
  well_formed st → is_Some (Xs_mu st !! key) → N_bins st ≠ 0.
Proof.
  intros [_ Hempty] Hm HN. destruct (Hempty HN) as [Hmu _].
  rewrite Hmu, lookup_empty in Hm. by destruct Hm.
Qed.

Lemma add_function_well_formed (Fkey : K) (F : list T → T) (ks : list K) st st' :
  well_formed st → ks ≠ [] →
  store_after (add_function Fkey F ks st) = Some st' → well_formed st'.
Proof.
  intros Hwf Hks. unfold add_function.
  destruct (not_present Fkey st); [|by intros [= <-]].
  destruct (mapM (λ key, Xs_mu st !! key) ks) as [args_mu|] eqn:Hmu;
    [|by intros [= <-]].
  assert (is_Some (mapM (λ key, Xs_mu st !! key) ks)) as Hmeans by eauto.
  apply mapM_is_Some_1 in Hmeans. rewrite Forall_forall in Hmeans.
  assert (N_bins st ≠ 0) as Hnz.
  { destruct ks as [|key ks]; [done|].
    apply (well_formed_has_mean st key); [done|]. apply Hmeans. by left. }
  simpl.
  destruct (rows_succeed
    (λ i, args_red_samples ←
            mapM (λ key, v ← Xs_reduced_samples st !! key; v !! N.to_nat i) ks;
          Some (F args_red_samples)) (N_bins st)) as (reps & -> & Hlen).
  - intros i Hi.
    destruct (mapM_is_Some_2
      (λ key, v ← Xs_reduced_samples st !! key; v !! N.to_nat i) ks)
      as [row ->]; [|by eauto].
    apply Forall_forall. intros key Hkey.
    apply well_formed_entry; [done | by apply Hmeans | done].
  - intros [= <-].
    by apply (well_formed_insert _ _ _ st); [|right|..].
Qed.

Lemma apply_pack_is_Some (look : K → option T) {n : nat} (ks : vec K n) :
  ∀ F : nfun n,
    is_Some (apply_pack look ks F)
    ↔ ∀ key, key ∈ vec_to_list ks → is_Some (look key).
Proof.
  induction ks as [|key n ks IH]; intros F; simpl.
  - split; [|by eauto]. intros _ key Hkey. by apply elem_of_nil in Hkey.
  - split.
    + intros [y (x & Hx & Hy)%bind_Some] key' [->|Hkey']%elem_of_cons;
        [by eauto|].
      eapply IH; [|done]. eauto.
    + intros Hall. destruct (Hall key) as [x ->]; [by left|]. simpl.
      apply IH. intros key' Hkey'. apply Hall. by right.
Qed.

Lemma add_function_pack_well_formed {n : nat} (Fkey : K) (F : nfun n)
    (ks : vec K n) st st' :
  well_formed st → n ≠ O →
  store_after (add_function_pack Fkey F ks st) = Some st' → well_formed st'.
Proof.
  intros Hwf Hn. unfold add_function_pack.
  destruct (not_present Fkey st); [|by intros [= <-]].
  destruct (apply_pack (λ key, Xs_mu st !! key) ks F) as [F_mu|] eqn:Hmu;
    [|by intros [= <-]].
  assert (∀ key, key ∈ vec_to_list ks → is_Some (Xs_mu st !! key)) as Hmeans.
  { apply (apply_pack_is_Some _ ks F). eauto. }
  assert (N_bins st ≠ 0) as Hnz.
  { destruct ks as [|key n ks]; [done|].
    apply (well_formed_has_mean st key); [done|]. apply Hmeans. by left. }
  simpl.
  destruct (rows_succeed
    (λ i, apply_pack
            (λ key, v ← Xs_reduced_samples st !! key; v !! N.to_nat i) ks F)
    (N_bins st)) as (reps & -> & Hlen).
  - intros i Hi. apply apply_pack_is_Some. intros key Hkey.
    apply well_formed_entry; [done | by apply Hmeans | done].
  - intros [= <-].
    by apply (well_formed_insert _ _ _ st); [|right|..].
Qed.

Lemma run_op_well_formed (o : op) st st' :
  well_formed st → has_arguments o →
  store_after (run_op o st) = Some st' → well_formed st'.
Proof.
  intros Hwf. destruct o as [k xs|k v m|Fkey F ks|n Fkey F ks|k]; simpl.
  - intros _ [->|(_ & _ & HN & Hnz & ->)]%resample_store_after; [done|].
    apply (well_formed_insert _ _ _ st); try done.
    apply reduced_samples_of_length.
  - intros _ [->|(_ & HN & Hnz & ->)]%add_resampled_store_after; [done|].
    change (well_formed
              (set_reduced_samples k v (set_mu k m (set_N_bins (size v) st)))).
    by apply (well_formed_insert _ _ _ st).
  - by apply add_function_well_formed.
  - by apply add_function_pack_well_formed.
  - intros _ [= <-]. by apply remove_well_formed.
Qed.

(** As long as [add_function] is not called without argument keys,
    every store that a sequence of calls on a new analyzer leaves,
    by normal return or by exception, has joint presence. *)
Lemma run_ops_joint_presence (ops : list op) (bs : N) st :
  Forall has_arguments ops →
  run_ops ops (create bs) = Some st → joint_presence st.
Proof.
  intros Hops Hrun. cut (well_formed st); [by intros []|].
  revert Hrun. generalize (create_well_formed bs).
  generalize (create bs : Store K T). induction Hops as [|o ops Ho Hops IH]; simpl.
  - by intros st0 Hwf [= <-].
  - intros st0 Hwf (st1 & Hst1 & Hrest)%bind_Some.
    apply (IH st1); [|done]. by apply (run_op_well_formed o st0).
Qed.

End Properties.

(** * Further properties of the member functions *)

Section Coverage.
Context {K : Type} `{Countable K}.
Context {T : Type} `{Arithmetic T}.
Implicit Types (st : Store K T) (k : K) (xs v : list T).

(** *** Undefined behaviour *)

Lemma init_or_verify_N_defined (n : N) (binned : bool) st :
  (if binned then 1 else bin_size st) ≠ 0 →
  init_or_verify_N n binned st ≠ Undefined.
Proof.
  intros Hd. unfold init_or_verify_N.
  destruct (N.eqb_spec (if binned then 1 else bin_size st) 0); [done|].
  repeat case_match; done.
Qed.

(** X1: once [init_or_verify_N(Xsamples, false)] has returned,
    [bin_size] is not zero and [N_bins * bin_size] is at most
    [Xsamples.size()], so that every [Xsamples[i]] the loops of
    [resample] read, for [b] below [N_bins] and [i] from
    [b * bin_size] up to [(b + 1) * bin_size], is inside the vector:
    the inner loop reaches no [operator[]] outside it. *)
Theorem resample_reads_inside_the_vector xs st st1 (sum_samples : T) :
  init_or_verify_N (size xs) false st = Ok st1 →
  bin_size st1 ≠ 0
  ∧ N_bins st1 * bin_size st1 ≤ size xs
  ∧ ∀ b, b < N_bins st1 →
      (∀ i, i ∈ range (b * bin_size st1) ((b + 1) * bin_size st1) →
            is_Some (xs !! N.to_nat i))
      ∧ is_Some (red_sample_of xs sum_samples (bin_size st1) b).
Proof.
  intros (Hbs & -> & _ & _)%init_or_verify_N_Ok. simpl.
  assert (size xs / bin_size st * bin_size st ≤ size xs) as Hprefix.
  { rewrite N.mul_comm. by apply N.Div0.mul_div_le. }
  split_and!; [done..|]. intros b Hb. split.
  - intros i Hi%elem_of_range. apply lookup_lt_is_Some_2.
    unfold size in *. nia.
  - rewrite red_sample_of_in_range by nia. eauto.
Qed.

(** *** What a registration stores and what it leaves alone *)

(** X2: a successful [add_resampled] under a key that is not present
    stores the series and the mean as they were passed: [samples] and
    [mu] return them, [N_bins] is the length of the series, which is
    not zero, and [mu] and [samples] of every other key are as
    before. *)
Theorem add_resampled_round_trip k v (m : T) st st' :
  not_present k st = true → add_resampled k v m st = Ok st' →
  samples k st' = Ret v
  ∧ mu k st' = Ret m
  ∧ N_bins st' = size v
  ∧ size v ≠ 0
  ∧ ∀ k', k' ≠ k → mu k' st' = mu k' st ∧ samples k' st' = samples k' st.
Proof.
  intros Hk Hres.
  assert (store_after (add_resampled k v m st) = Some st') as Hafter
    by (by rewrite Hres).
  apply add_resampled_store_after in Hafter as [->|(_ & _ & Hnz & ->)].
  { unfold add_resampled in Hres. rewrite Hk in Hres.
    destruct (init_or_verify_N (size v) true st) as [st1| |] eqn:Hinit;
      [|done..].
    apply init_or_verify_N_Ok in Hinit as (_ & -> & _).
    injection Hres as Hres. apply not_present_true in Hk as [Hred _].
    apply (f_equal (λ s, Xs_reduced_samples s !! k)) in Hres.
    simpl in Hres. by rewrite lookup_insert_eq, Hred in Hres. }
  split_and!; [| |done|done|].
  - apply at_Some. simpl. apply lookup_insert_eq.
  - apply at_Some. simpl. apply lookup_insert_eq.
  - intros k' Hne. unfold mu, samples, at_. simpl.
    by rewrite !lookup_insert_ne.
Qed.

(** The stores [add_function] can leave. *)
Lemma add_function_shape (Fkey : K) (F : list T → T) (ks : list K) st st' :
  store_after (add_function Fkey F ks st) = Some st' →
  st' = st
  ∨ (not_present Fkey st = true
     ∧ ∃ m, st' = set_mu Fkey m st
            ∨ ∃ v, st' = set_reduced_samples Fkey v (set_mu Fkey m st)).
Proof.
  unfold add_function.
  destruct (not_present Fkey st); [|intros [= <-]; by left].
  destruct (mapM _ ks) as [args_mu|]; [|intros [= <-]; by left].
  simpl. destruct (mapM _ (range 0 (N_bins st))) as [reps|];
    intros [= <-]; right; (split; [done|]); eauto.
Qed.

Lemma add_function_pack_shape {n : nat} (Fkey : K) (F : nfun n)
    (ks : vec K n) st st' :
  store_after (add_function_pack Fkey F ks st) = Some st' →
  st' = st
  ∨ (not_present Fkey st = true
     ∧ ∃ m, st' = set_mu Fkey m st
            ∨ ∃ v, st' = set_reduced_samples Fkey v (set_mu Fkey m st)).
Proof.
  unfold add_function_pack.
  destruct (not_present Fkey st); [|intros [= <-]; by left].
  destruct (apply_pack _ ks F) as [F_mu|]; [|intros [= <-]; by left].
  simpl. destruct (mapM _ (range 0 (N_bins st))) as [reps|];
    intros [= <-]; right; (split; [done|]); eauto.
Qed.

(** Every call but [remove] only adds entries. *)
Lemma run_op_extends (o : op) st st' :
  store_after (run_op o st) = Some st' →
  (∃ k, o = op_remove k ∧ st' = remove k st)
  ∨ (op_key o ≠ None
     ∧ Xs_mu st ⊆ Xs_mu st'
     ∧ Xs_reduced_samples st ⊆ Xs_reduced_samples st').
Proof.
  destruct o as [k xs|k v m|Fkey F ks|n Fkey F ks|k]; simpl.
  - intros [->|([Hred Hmu]%not_present_true & _ & _ & _ & ->)]%resample_store_after;
      right; (split; [done|]); [done|].
    simpl. split; by apply insert_subseteq.
  - intros [->|([Hred Hmu]%not_present_true & _ & _ & ->)]%add_resampled_store_after;
      right; (split; [done|]); [done|].
    simpl. split; by apply insert_subseteq.
  - intros [->|([Hred Hmu]%not_present_true & m & [->|[v ->]])]%add_function_shape;
      right; (split; [done|]); [done| |]; simpl;
      (split; [by apply insert_subseteq|]);
      [done | by apply insert_subseteq].
  - intros [->|([Hred Hmu]%not_present_true & m & [->|[v ->]])]%add_function_pack_shape;
      right; (split; [done|]); [done| |]; simpl;
      (split; [by apply insert_subseteq|]);
      [done | by apply insert_subseteq].
  - intros [= <-]. left. eauto.
Qed.

(** X3: datasets are never changed in place.  Whatever call other
    than [remove] is made, and whether it returns or throws, every
    mean and every series of the store before the call is in the
    store after it, unchanged; [remove] takes entries away and
    changes none. *)
Theorem registration_extends_maps (o : op) st st' :
  store_after (run_op o st) = Some st' →
  (op_key o ≠ None →
     Xs_mu st ⊆ Xs_mu st'
     ∧ Xs_reduced_samples st ⊆ Xs_reduced_samples st'
     ∧ ∀ k (m : T) v,
         (mu k st = Ret m → mu k st' = Ret m)
         ∧ (samples k st = Ret v → samples k st' = Ret v))
  ∧ (op_key o = None →
     Xs_mu st' ⊆ Xs_mu st
     ∧ Xs_reduced_samples st' ⊆ Xs_reduced_samples st).
Proof.
  intros [(k & -> & ->)|(Hop & Hmu & Hred)]%run_op_extends.
  - split; [done|]. intros _. simpl. split; apply delete_subseteq.
  - split; [|done].
    intros _. split_and!; [done..|]. intros k m v. unfold mu, samples, at_.
    split.
    + destruct (Xs_mu st !! k) as [m'|] eqn:Hm; [|done]. intros [= ->].
      by rewrite (lookup_weaken _ _ _ _ Hm Hmu).
    + destruct (Xs_reduced_samples st !! k) as [v'|] eqn:Hv; [|done].
      intros [= ->]. by rewrite (lookup_weaken _ _ _ _ Hv Hred).
Qed.

(** X4: once [N_bins] is set, no call other than [remove] changes
    what [sigma] and [jackknife] return for a key that has a mean and
    a series. *)
Theorem sigma_is_stable (o : op) k st st' :
  store_after (run_op o st) = Some st' →
  N_bins st ≠ 0 → op_key o ≠ None →
  is_Some (Xs_mu st !! k) → is_Some (Xs_reduced_samples st !! k) →
  sigma k st' = sigma k st
  ∧ ∀ mu_X sigma_X, jackknife k mu_X sigma_X st' = jackknife k mu_X sigma_X st.
Proof.
  intros Hafter HN Hop [m Hm] [v Hv].
  destruct (run_op_N_bins _ _ _ Hafter) as [_ [?|HN']]; [done|].
  apply run_op_extends in Hafter as [(k' & -> & _)|(_ & Hmu & Hred)]; [done|].
  pose proof (lookup_weaken _ _ _ _ Hm Hmu) as Hm'.
  pose proof (lookup_weaken _ _ _ _ Hv Hred) as Hv'.
  split.
  - rewrite (sigma_registered _ _ _ _ Hv Hm), (sigma_registered _ _ _ _ Hv' Hm').
    unfold bins_ratio. by rewrite HN'.
  - intros mu_X sigma_X.
    rewrite (jackknife_registered _ _ _ _ _ _ Hv Hm),
      (jackknife_registered _ _ _ _ _ _ Hv' Hm').
    unfold bins_ratio. by rewrite HN'.
Qed.

(** *** [remove] after and before a registration *)

(** X5: [remove k] takes back whatever a call that names [k] as its
    new key did to a store without [k], whether the call returned or
    threw: the maps are the ones before the call, and only an [N_bins]
    the call has set stays. *)
Theorem remove_undoes_registration (o : op) k st st' :
  op_key o = Some k → not_present k st = true →
  store_after (run_op o st) = Some st' →
  remove k st' = set_N_bins (N_bins st') st.
Proof.
  intros Hop [Hred Hmu]%not_present_true Hafter.
  assert (remove k st = set_N_bins (N_bins st) st) as Hsame.
  { unfold remove, set_N_bins. by rewrite !delete_id. }
  assert (∀ (m : T) n,
            remove k (set_mu k m (set_N_bins n st)) = set_N_bins n st) as Hmean.
  { intros m n. unfold remove, set_mu, set_N_bins. simpl.
    by rewrite delete_insert_id, delete_id. }
  assert (∀ (m : T) v n,
            remove k (set_reduced_samples k v (set_mu k m (set_N_bins n st)))
            = set_N_bins n st) as Hboth.
  { intros m v n. unfold remove, set_reduced_samples, set_mu, set_N_bins.
    simpl. by rewrite !delete_insert_id. }
  assert (set_N_bins (N_bins st) st = st) as Hid by (by destruct st).
  destruct o as [k' xs|k' v m|Fkey F ks|n Fkey F ks|k']; simpl in *;
    [injection Hop as ->..|done].
  - apply resample_store_after in Hafter as [->|(_ & _ & _ & _ & ->)];
      [done | apply Hboth].
  - apply add_resampled_store_after in Hafter as [->|(_ & _ & _ & ->)];
      [done | apply Hboth].
  - apply add_function_shape in Hafter as [->|(_ & m & [->|[v ->]])];
      [done | | ]; simpl; rewrite <- Hid at 1; [apply Hmean | apply Hboth].
  - apply add_function_pack_shape in Hafter as [->|(_ & m & [->|[v ->]])];
      [done | | ]; simpl; rewrite <- Hid at 1; [apply Hmean | apply Hboth].
Qed.

(** X6: a dataset is replaced by [remove] followed by [resample]:
    on a store with [N_bins] set, [resample k xs] after [remove k]
    succeeds for every series with the right bin count, whether [k]
    was present or not, stores the mean and the replicates of [xs]
    under [k], and leaves every other key and [N_bins] as they
    were. *)
Theorem remove_then_resample k xs st :
  bin_size st ≠ 0 → N_bins st ≠ 0 → size xs / bin_size st = N_bins st →
  ∃ st',
    resample k xs (remove k st) = Ok st'
    ∧ N_bins st' = N_bins st
    ∧ mu k st' = Ret (div (sum_of xs) (of_size (size xs)))
    ∧ samples k st' = Ret (reduced_samples_of xs (bin_size st) (N_bins st))
    ∧ ∀ k', k' ≠ k →
        Xs_mu st' !! k' = Xs_mu st !! k'
        ∧ Xs_reduced_samples st' !! k' = Xs_reduced_samples st !! k'.
Proof.
  intros Hbs HN Hbins.
  assert (not_present k (remove k st) = true) as Hk.
  { apply not_present_true. simpl. by rewrite !lookup_delete_eq. }
  rewrite resample_eq, Hk by done.
  rewrite init_or_verify_N_match by done. simpl. rewrite Hbins.
  eexists. split; [done|]. simpl. split_and!; [done| | |].
  - apply at_Some. simpl. apply lookup_insert_eq.
  - apply at_Some. simpl. apply lookup_insert_eq.
  - intros k' Hne. by rewrite !lookup_insert_ne, !lookup_delete_ne.
Qed.

(** *** Repeating a registration *)

Lemma run_op_Ok_present (o : op) k st st' :
  op_key o = Some k → run_op o st = Ok st' → not_present k st' = false.
Proof.
  intros Hop.
  assert (∀ (m : T) v st1,
            not_present k (set_reduced_samples k v (set_mu k m st1)) = false)
    as Hins.
  { intros m v st1. apply not_present_false. left. simpl.
    rewrite lookup_insert_eq. eauto. }
  destruct o as [k' xs|k' v m|Fkey F ks|n Fkey F ks|k']; simpl in *;
    [injection Hop as ->..|done].
  - unfold resample. destruct (not_present k st) eqn:Hk;
      [|by intros [= <-]].
    destruct (init_or_verify_N _ _ _); [|done..].
    destruct (mapM _ _); [|done]. intros [= <-]. apply Hins.
  - unfold add_resampled. destruct (not_present k st) eqn:Hk;
      [|by intros [= <-]].
    destruct (init_or_verify_N _ _ _) as [st1| |]; [|done..].
    intros [= <-]. exact (Hins m v st1).
  - unfold add_function. destruct (not_present k st) eqn:Hk;
      [|by intros [= <-]].
    destruct (mapM _ ks); [|done]. simpl.
    destruct (mapM _ _); [|done]. intros [= <-]. apply Hins.
  - unfold add_function_pack. destruct (not_present k st) eqn:Hk;
      [|by intros [= <-]].
    destruct (apply_pack _ ks F); [|done]. simpl.
    destruct (mapM _ _); [|done]. intros [= <-]. apply Hins.
Qed.

Lemma run_op_present (o : op) k st :
  op_key o = Some k → not_present k st = false → run_op o st = Ok st.
Proof.
  intros Hop Hk.
  destruct o as [k' xs|k' v m|Fkey F ks|n Fkey F ks|k']; simpl in *;
    [injection Hop as ->..|done];
    unfold resample, add_resampled, add_function, add_function_pack;
    by rewrite Hk.
Qed.

(** X7: after a call that registers or composes under [k] has
    returned normally, every further call that names [k] as its new
    key, with whatever data, returns normally and leaves the store as
    it is. *)
Theorem registration_is_idempotent (o o' : op) k st st' :
  op_key o = Some k → run_op o st = Ok st' → op_key o' = Some k →
  run_op o' st' = Ok st'.
Proof.
  intros Hop Hres Hop'. apply (run_op_present o' k); [done|].
  by apply (run_op_Ok_present o k st).
Qed.

(** *** The bin count of an analyzer *)

Lemma init_or_verify_N_Ok_bins (n : N) (binned : bool) st st1 :
  init_or_verify_N n binned st = Ok st1 →
  bin_size st1 = bin_size st
  ∧ (N_bins st1 = N_bins st ∨ (N_bins st = 0 ∧ 1 < N_bins st1)).
Proof.
  unfold init_or_verify_N.
  destruct (N.eqb_spec (if binned then 1 else bin_size st) 0); [done|].
  destruct (N.eqb_spec (N_bins st) 0) as [HN|HN].
  - destruct (N.ltb_spec 1 (n / (if binned then 1 else bin_size st)));
      [|done].
    intros [= <-]. simpl. split; [done|]. by right.
  - destruct (N.eqb_spec (n / (if binned then 1 else bin_size st)) (N_bins st));
      [|done].
    intros [= <-]. split; [done|]. by left.
Qed.

Lemma run_op_bins (o : op) st st' :
  store_after (run_op o st) = Some st' →
  bin_size st' = bin_size st
  ∧ (N_bins st' = N_bins st ∨ (N_bins st = 0 ∧ 1 < N_bins st')).
Proof.
  destruct o as [k xs|k v m|Fkey F ks|n Fkey F ks|k]; simpl.
  - unfold resample. destruct (not_present k st);
      [|intros [= <-]; split; [done | by left]].
    destruct (init_or_verify_N _ _ _) as [st1|e st1|] eqn:Hinit; [| |done].
    + apply init_or_verify_N_Ok_bins in Hinit as [Hbs HN].
      destruct (mapM _ _); [|done]. by intros [= <-].
    + apply init_or_verify_N_Throw in Hinit as ->. intros [= <-].
      split; [done | by left].
  - unfold add_resampled. destruct (not_present k st);
      [|intros [= <-]; split; [done | by left]].
    destruct (init_or_verify_N _ _ _) as [st1|e st1|] eqn:Hinit; [| |done].
    + apply init_or_verify_N_Ok_bins in Hinit as [Hbs HN].
      by intros [= <-].
    + apply init_or_verify_N_Throw in Hinit as ->. intros [= <-].
      split; [done | by left].
  - intros [-> ->]%add_function_store_after. split; [done | by left].
  - intros [-> ->]%add_function_pack_store_after. split; [done | by left].
  - intros [= <-]. split; [done | by left].
Qed.

(** X8: whatever sequence of calls is made on a new analyzer, and
    however each of them ends, [bin_size] is the one passed to the
    constructor and [N_bins] is either unset or at least 2; it is
    never 1. *)
Theorem N_bins_is_unset_or_at_least_2 (ops : list op) (bs : N) st :
  run_ops ops (create bs) = Some st →
  bin_size st = bs ∧ (N_bins st = 0 ∨ 2 ≤ N_bins st).
Proof.
  assert (∀ st0 : Store K T,
            N_bins st0 = 0 ∨ 2 ≤ N_bins st0 →
            run_ops ops st0 = Some st →
            bin_size st = bin_size st0 ∧ (N_bins st = 0 ∨ 2 ≤ N_bins st))
    as Hgen.
  { induction ops as [|o ops IH]; intros st0 HN; simpl.
    - by intros [= <-].
    - intros (st1 & Hst1 & Hrest)%bind_Some.
      apply run_op_bins in Hst1 as [Hbs HN1].
      destruct (IH st1) as [Hbs' HN']; [lia | done |].
      split; [congruence | done]. }
  intros Hrun. apply (Hgen (create bs)); [by left | done].
Qed.

(** *** Exceptions of [add_function] *)

Lemma joint_presence_entry st key (i : N) :
  joint_presence st → is_Some (Xs_mu st !! key) → i < N_bins st →
  is_Some (v ← Xs_reduced_samples st !! key; v !! N.to_nat i).
Proof.
  intros Hjoint Hm Hi.
  destruct (Hjoint key) as [[Hnone _]|(_ & v & -> & Hv)].
  - rewrite Hnone in Hm. by destruct Hm.
  - simpl. apply lookup_lt_is_Some_2. unfold size in Hv. lia.
Qed.

(** X9: on a store with joint presence [add_function], in either
    overload, is exception safe: when it throws, it throws
    [std::out_of_range] for an argument key without a mean, and the
    store is the one before the call. *)
Theorem add_function_exception_safe (Fkey : K) st :
  joint_presence st →
  (∀ (F : list T → T) (ks : list K) e st',
     add_function Fkey F ks st = Throw e st' →
     e = out_of_range ∧ st' = st ∧ ∃ key, key ∈ ks ∧ Xs_mu st !! key = None)
  ∧ (∀ (n : nat) (F : nfun n) (ks : vec K n) e st',
       add_function_pack Fkey F ks st = Throw e st' →
       e = out_of_range ∧ st' = st
       ∧ ∃ key, key ∈ vec_to_list ks ∧ Xs_mu st !! key = None).
Proof.
  intros Hjoint. split.
  - intros F ks e st'. unfold add_function.
    destruct (not_present Fkey st); [|done].
    destruct (mapM (λ key, Xs_mu st !! key) ks) as [args_mu|] eqn:Hmu.
    + assert (is_Some (mapM (λ key, Xs_mu st !! key) ks)) as Hmeans by eauto.
      apply mapM_is_Some_1 in Hmeans. rewrite Forall_forall in Hmeans.
      simpl.
      destruct (rows_succeed
        (λ i, args_red_samples ←
                mapM (λ key, v ← Xs_reduced_samples st !! key; v !! N.to_nat i) ks;
              Some (F args_red_samples)) (N_bins st)) as (reps & -> & _);
        [|done].
      intros i Hi.
      destruct (mapM_is_Some_2
        (λ key, v ← Xs_reduced_samples st !! key; v !! N.to_nat i) ks)
        as [row ->]; [|by eauto].
      apply Forall_forall. intros key Hkey.
      apply joint_presence_entry; [done | by apply Hmeans | done].
    + intros [= <- <-]. split_and!; [done..|].
      by apply mapM_None_1, Exists_exists in Hmu.
  - intros n F ks e st'. unfold add_function_pack.
    destruct (not_present Fkey st); [|done].
    destruct (apply_pack (λ key, Xs_mu st !! key) ks F) as [F_mu|] eqn:Hmu.
    + assert (∀ key, key ∈ vec_to_list ks → is_Some (Xs_mu st !! key))
        as Hmeans.
      { apply (apply_pack_is_Some _ ks F). eauto. }
      simpl.
      destruct (rows_succeed
        (λ i, apply_pack
                (λ key, v ← Xs_reduced_samples st !! key; v !! N.to_nat i) ks F)
        (N_bins st)) as (reps & -> & _); [|done].
      intros i Hi. apply apply_pack_is_Some. intros key Hkey.
      apply joint_presence_entry; [done | by apply Hmeans | done].
    + intros [= <- <-]. split_and!; [done..|].
      destruct (decide (Exists (λ key, Xs_mu st !! key = None) (vec_to_list ks)))
        as [Hex|Hall].
      * by apply Exists_exists in Hex.
      * apply not_Exists_Forall in Hall; [|intros key; apply _].
        rewrite Forall_forall in Hall.
        assert (is_Some (apply_pack (λ key, Xs_mu st !! key) ks F)) as [? ?];
          [|congruence].
        apply apply_pack_is_Some. intros key Hkey.
        apply not_eq_None_Some. by apply Hall.
Qed.

(** X10: the key being defined cannot be among its own arguments:
    with a result key that is not present and is listed among the
    argument keys, [add_function] throws [std::out_of_range] and
    leaves the store as it is, in either overload. *)
Theorem add_function_self_reference (Fkey : K) st :
  not_present Fkey st = true →
  (∀ (F : list T → T) (ks : list K),
     Fkey ∈ ks → add_function Fkey F ks st = Throw out_of_range st)
  ∧ (∀ (n : nat) (F : nfun n) (ks : vec K n),
       Fkey ∈ vec_to_list ks →
       add_function_pack Fkey F ks st = Throw out_of_range st).
Proof.
  intros Hk. pose proof Hk as [_ Hmu]%not_present_true. split.
  - intros F ks Hin. unfold add_function. rewrite Hk.
    rewrite (mapM_None_2 (λ key, Xs_mu st !! key) ks); [done|].
    apply Exists_exists. eauto.
  - intros n F ks Hin. unfold add_function_pack. rewrite Hk.
    destruct (apply_pack (λ key, Xs_mu st !! key) ks F) as [F_mu|] eqn:Happ;
      [|done].
    assert (is_Some (Xs_mu st !! Fkey)) as [? ?]; [|congruence].
    apply (apply_pack_is_Some (λ key, Xs_mu st !! key) ks F); eauto.
Qed.

(** X11: [add_function] with no argument keys, under a key that is
    not present, registers a constant: the mean is [F] of no
    arguments and the series is [N_bins] copies of it (none while
    [N_bins] is unset), in either overload. *)
Theorem add_function_no_arguments (Fkey : K) st :
  not_present Fkey st = true →
  (∀ F : list T → T,
     add_function Fkey F [] st
     = Ok (set_reduced_samples Fkey (replicate (N.to_nat (N_bins st)) (F []))
             (set_mu Fkey (F []) st)))
  ∧ (∀ F : nfun 0,
       add_function_pack Fkey F [#] st
       = Ok (set_reduced_samples Fkey (replicate (N.to_nat (N_bins st)) F)
               (set_mu Fkey F st))).
Proof.
  intros Hk.
  assert (∀ c : T, mapM (λ _ : N, Some c) (range 0 (N_bins st))
                   = Some (replicate (N.to_nat (N_bins st)) c)) as Hrows.
  { intros c. rewrite (mapM_total _ (λ _, c)) by done.
    rewrite (const_fmap _ _ c) by done.
    by rewrite range_length, N.sub_0_r. }
  split.
  - intros F. unfold add_function. rewrite Hk. simpl. by rewrite Hrows.
  - intros F. unfold add_function_pack. rewrite Hk. simpl. by rewrite Hrows.
Qed.

(** *** The constructor that resamples *)

(** X12: [JackknifeAnalyzer(Xkey, Xsamples, bin_size)] with a bin
    size other than zero constructs the analyzer that holds [Xkey]
    alone when the samples make at least 2 bins, and throws the
    "less than 2 bins" error otherwise; with bin size zero it divides
    by zero. *)
Theorem create_resample_spec k xs (bs : N) :
  (bs = 0 → create_resample k xs bs = Undefined)
  ∧ (bs ≠ 0 → 1 < size xs / bs →
       create_resample k xs bs
       = Ok (mkStore (size xs / bs) bs
               {[k := reduced_samples_of xs bs (size xs / bs)]}
               {[k := div (sum_of xs) (of_size (size xs))]}))
  ∧ (bs ≠ 0 → size xs / bs ≤ 1 →
       create_resample k xs bs
       = Throw (runtime_error less_than_2_bins) (create bs)).
Proof.
  assert (not_present k (create bs : Store K T) = true) as Hk.
  { apply not_present_true. simpl. by rewrite !lookup_empty. }
  unfold create_resample. split_and!.
  - intros ->. unfold resample, init_or_verify_N. by rewrite Hk.
  - intros Hbs Hbins. rewrite resample_eq, Hk by done.
    rewrite init_or_verify_N_first by done.
    unfold set_reduced_samples, set_mu, set_N_bins. simpl.
    by rewrite !insert_empty.
  - intros Hbs Hbins. rewrite resample_eq, Hk by done.
    by rewrite init_or_verify_N_too_few.
Qed.

(** *** The queries on the stores an analyzer can be in *)

Lemma run_ops_well_formed (ops : list op) st0 st :
  well_formed st0 → Forall has_arguments ops →
  run_ops ops st0 = Some st → well_formed st.
Proof.
  intros Hwf Hops. revert st0 Hwf.
  induction Hops as [|o ops Ho Hops IH]; intros st0 Hwf; simpl.
  - by intros [= <-].
  - intros (st1 & Hst1 & Hrest)%bind_Some.
    apply (IH st1); [|done]. by apply (run_op_well_formed o st0).
Qed.

(** X13: after any sequence of calls on a new analyzer in which
    [add_function] is never called without argument keys, the four
    queries agree on every key.  Either [mu], [sigma] and [samples]
    all throw and [jackknife] returns [false] and leaves its
    parameters alone; or [mu] and [samples] return, the series has
    [N_bins] entries, [N_bins] is set, and [sigma] and [jackknife] do
    not throw: both return, [jackknife] with [true] and the mean of
    [mu], unless the division by [(T) N_bins] is undefined, and then
    both are undefined. *)
Theorem reachable_queries_agree (ops : list op) (bs : N) st k :
  Forall has_arguments ops → run_ops ops (create bs) = Some st →
  (mu k st = Raise out_of_range
   ∧ sigma k st = Raise out_of_range
   ∧ samples k st = Raise out_of_range
   ∧ ∀ mu_X sigma_X, jackknife k mu_X sigma_X st = Ret (false, mu_X, sigma_X))
  ∨ (∃ (m : T) v,
       mu k st = Ret m
       ∧ samples k st = Ret v
       ∧ size v = N_bins st
       ∧ N_bins st ≠ 0
       ∧ ((bins_ratio st = Undef
           ∧ sigma k st = Undef
           ∧ ∀ mu_X sigma_X, jackknife k mu_X sigma_X st = Undef)
          ∨ (∃ s s',
               sigma k st = Ret s
               ∧ ∀ mu_X sigma_X,
                   jackknife k mu_X sigma_X st = Ret (true, m, s')))).
Proof.
  intros Hops Hrun.
  pose proof (run_ops_well_formed ops _ st (create_well_formed bs) Hops Hrun)
    as Hwf.
  destruct (proj1 Hwf k) as [[Hm Hv]|([m Hm] & v & Hv & Hlen)].
  - left. split_and!.
    + by apply at_None.
    + unfold sigma. by rewrite (at_None _ _ Hv).
    + by apply at_None.
    + intros mu_X sigma_X. unfold jackknife. by rewrite Hv.
  - right. exists m, v. split_and!.
    + by apply at_Some.
    + by apply at_Some.
    + done.
    + apply (well_formed_has_mean st k); [done | by eauto].
    + rewrite (sigma_registered _ _ _ _ Hv Hm).
      destruct (bins_ratio st) as [ratio| |] eqn:Hratio.
      * right. eexists. eexists. split; [done|]. intros mu_X sigma_X.
        by rewrite (jackknife_registered _ _ _ _ _ _ Hv Hm), Hratio.
      * unfold bins_ratio in Hratio. by destruct (div_undefined _ _).
      * left. split_and!; [done..|]. intros mu_X sigma_X.
        by rewrite (jackknife_registered _ _ _ _ _ _ Hv Hm), Hratio.
Qed.

(** *** The variadic overload *)

Lemma apply_pack_Some (look : K → option T) {n : nat} (ks : vec K n) :
  ∀ (F : nfun n) (y : T),
    apply_pack look ks F = Some y →
    ∃ args : vec T n,
      Forall2 (λ key x, look key = Some x) (vec_to_list ks) (vec_to_list args)
      ∧ y = napply args F.
Proof.
  induction ks as [|key n ks IH]; intros F y; simpl.
  - intros [= <-]. exists [#]. split; [constructor | done].
  - intros (x & Hx & Hy)%bind_Some.
    destruct (IH _ _ Hy) as (args & Hargs & ->).
    exists (x ::: args). split; [by constructor | done].
Qed.

(** X14: the variadic [add_function] under a key that is not
    present, on a normal return, has stored as mean [F] applied to the
    means of the [n] argument keys, in their order, and as replicate
    [i], for each [i] below [N_bins], [F] applied to the [i]-th
    replicates of the argument keys; [N_bins] is unchanged. *)
Theorem add_function_pack_spec {n : nat} (Fkey : K) (F : nfun n)
    (ks : vec K n) st st' :
  not_present Fkey st = true → add_function_pack Fkey F ks st = Ok st' →
  N_bins st' = N_bins st
  ∧ (∃ args_mu : vec T n,
       Forall2 (λ key m, mu key st = Ret m)
               (vec_to_list ks) (vec_to_list args_mu)
       ∧ mu Fkey st' = Ret (napply args_mu F))
  ∧ ∃ reps,
      samples Fkey st' = Ret reps
      ∧ size reps = N_bins st
      ∧ ∀ i, i < N_bins st →
          ∃ row : vec T n,
            Forall2 (λ key x, ∃ v, samples key st = Ret v
                                   ∧ v !! N.to_nat i = Some x)
                    (vec_to_list ks) (vec_to_list row)
            ∧ reps !! N.to_nat i = Some (napply row F).
Proof.
  intros Hk. unfold add_function_pack. rewrite Hk.
  destruct (apply_pack (λ key, Xs_mu st !! key) ks F) as [F_mu|] eqn:Hmu;
    [|done].
  simpl. destruct (mapM _ (range 0 (N_bins st))) as [reps|] eqn:Hreps; [|done].
  intros [= <-]. split; [done|]. split.
  - apply apply_pack_Some in Hmu as (args_mu & Hargs & ->).
    exists args_mu. split.
    + eapply Forall2_impl; [done|]. simpl. intros key m Hm. by apply at_Some.
    + apply at_Some. simpl. apply lookup_insert_eq.
  - exists reps. split_and!.
    + apply at_Some. simpl. apply lookup_insert_eq.
    + apply length_mapM in Hreps. rewrite range_length in Hreps.
      unfold size. lia.
    + intros i Hi. apply mapM_Some_1 in Hreps.
      assert (range 0 (N_bins st) !! N.to_nat i = Some i) as Hrange.
      { rewrite range_0_lookup by lia. f_equal. lia. }
      destruct (Forall2_lookup_l _ _ _ _ _ Hreps Hrange) as (y & Hy & Hrow).
      apply apply_pack_Some in Hrow as (row & Hrow & ->).
      exists row. split; [|done].
      eapply Forall2_impl; [done|]. simpl.
      intros key x (v & Hv & Hx)%bind_Some.
      exists v. split; [by apply at_Some | done].
Qed.

End Coverage.

Section KeysProperties.
Context {K : Type} `{Countable K}.
Context {T : Type} `{Arithmetic T}.
Context (less : relation K) `{!RelDecision less}.

Lemma keys_Permutation (st : Store K T) :
  keys less st ≡ₚ (map_to_list (Xs_mu st)).*1.
Proof. unfold keys. apply merge_sort_Permutation. Qed.

Lemma elem_of_keys (st : Store K T) (k : K) :
  k ∈ keys less st ↔ is_Some (Xs_mu st !! k).
Proof.
  rewrite keys_Permutation, list_elem_of_fmap. split.
  - intros ([k' m] & -> & Hin%elem_of_map_to_list). simpl. eauto.
  - intros [m Hm]. exists (k, m). split; [done|].
    by apply elem_of_map_to_list.
Qed.

(** X15: [keys()] returns every key that has a mean, each once, in
    strictly ascending order of [std::less<K>] (a strict total
    order); in particular it lists [k] exactly when [mu(k)] does not
    throw, and it is empty on a new analyzer. *)
Theorem keys_spec `{!StrictOrder less} `{!Trichotomy less} (st : Store K T) :
  (∀ k, k ∈ keys less st ↔ ∃ m, mu k st = Ret m)
  ∧ NoDup (keys less st)
  ∧ StronglySorted less (keys less st)
  ∧ (∀ bs, keys less (create bs : Store K T) = [])
  ∧ (∀ k k', k' ∈ keys less (remove k st) ↔ k' ∈ keys less st ∧ k' ≠ k).
Proof.
  assert (NoDup (keys less st)) as Hnodup.
  { rewrite keys_Permutation. apply NoDup_fst_map_to_list. }
  split_and!.
  - intros k. rewrite elem_of_keys. unfold mu, at_.
    destruct (Xs_mu st !! k) as [m|]; split.
    + eauto.
    + eauto.
    + by intros [? ?].
    + by intros [? ?].
  - done.
  - assert (Transitive (λ x y, ¬ less y x)) as Htrans.
    { intros x y z Hyx Hzy Hzx.
      destruct (trichotomy less x y) as [Hxy|[->|Hxy]]; [|done..].
      apply Hzy. by transitivity x. }
    assert (Total (λ x y, ¬ less y x)) as Htotal.
    { intros x y. destruct (decide (less y x)) as [Hyx|Hyx]; [|by left].
      right. intros Hxy. apply (irreflexivity less x). by transitivity y. }
    pose proof (StronglySorted_merge_sort (λ x y, ¬ less y x)
                  (map_to_list (Xs_mu st)).*1) as Hsorted.
    fold (keys less st) in Hsorted. revert Hnodup.
    induction Hsorted as [|x l Hl IH Hx]; intros Hnodup; [constructor|].
    apply NoDup_cons in Hnodup as [Hnotin Hnodup].
    constructor; [by apply IH|].
    rewrite Forall_forall in Hx. apply Forall_forall. intros y Hy.
    destruct (trichotomy less x y) as [Hxy|[->|Hxy]]; [done..|].
    by destruct (Hx y Hy).
  - intros bs. unfold keys, create. simpl. by rewrite map_to_list_empty.
  - intros k k'. rewrite !elem_of_keys. simpl.
    rewrite lookup_delete_is_Some. split; intros [? ?]; split; done.
Qed.

End KeysProperties.

(** * The analyzer at [K = std::string] and [T = long], [float], [double] *)

Local Open Scope string_scope.
Local Open Scope Z_scope.

(** The store after [resample("X", {1, 2, 3, 4, 5, 6})] at bin size 1. *)
#[local] Abbreviation store_X :=
  (mkStore 6 1 {["X" := [4; 3; 3; 3; 3; 3]]} {["X" := 3]} : Store string Z).

(** Two datasets of two bins each, and the store after
    [add_function("S", F, {"X", "Y"})] for [F(a, b) = a + b]. *)
#[local] Abbreviation store_XY :=
  (mkStore 2 1 {["X" := [1; 2]; "Y" := [10; 20]]} {["X" := 1; "Y" := 15]}
   : Store string Z).
#[local] Abbreviation store_XYS :=
  (mkStore 2 1 {["X" := [1; 2]; "Y" := [10; 20]; "S" := [11; 22]]}
               {["X" := 1; "Y" := 15; "S" := 16]} : Store string Z).

(** [F(a, b) = a + b] as a function of a sequence and of two
    parameters. *)
#[local] Abbreviation plus_seq :=
  (λ args : list Z, match args with [a; b] => a + b | _ => 0 end).
#[local] Abbreviation plus_2 := (Z.add : nfun (T:=Z) 2).

(** The store after [add_function("c", F, {})] on a new analyzer, for
    [F] returning 7. *)
#[local] Abbreviation store_c :=
  (mkStore 0 1 {["c" := []]} {["c" := 7]} : Store string Z).

(** Integers as [float]s and as [double]s, and the analyzer after
    [add_resampled("R", {4096, 1, 1, 1, 1}, 0)] at [T = float] and at
    [T = double]. *)
#[local] Abbreviation f32 := (SF_of_Z 24 128 : Z → float).
#[local] Abbreviation f64 := (SF_of_Z 53 1024 : Z → double).
#[local] Abbreviation store_R_float :=
  (mkStore 5 1 {["R" := [f32 4096; f32 1; f32 1; f32 1; f32 1]]}
               {["R" := f32 0]} : Store string float).
#[local] Abbreviation store_R_double :=
  (mkStore 5 1 {["R" := [f64 4096; f64 1; f64 1; f64 1; f64 1]]}
               {["R" := f64 0]} : Store string double).



(** The scenario of the specification, in integers: six samples, bin
    size 1, six replicates, replicate 0 is [(21 - 1) / 5] and
    replicate 5 is [(21 - 6) / 5]. *)
Example resample_123456 :
  resample "X" [1; 2; 3; 4; 5; 6] (create 1) = Ok store_X.
Proof. vm_compute. reflexivity. Qed.



(** C2 fails on the code: [sigma] does not return for every
    registered key.  At [T = long], after [add_function("c", F, {})] on
    a new analyzer the key ["c"] has a mean and a series, [N_bins] is
    0, and [sigma("c")] divides [(T)(N_bins - 1)] by [(T) 0]: it
    neither returns nor throws. *)
Lemma sigma_undefined_without_bins :
  run_ops [op_add_function "c" (λ _, 7) []] (create 1) = Some store_c
  ∧ mu "c" store_c = Ret 7
  ∧ samples "c" store_c = Ret []
  ∧ sigma "c" store_c = Undef
  ∧ ¬ (∃ s, sigma "c" store_c = Ret s).
Proof.
  assert (sigma "c" store_c = Undef) as Hsigma by (vm_compute; reflexivity).
  split; [vm_compute; reflexivity|].
  split; [vm_compute; reflexivity|].
  split; [vm_compute; reflexivity|].
  split; [exact Hsigma|].
  intros [s Hs]. rewrite Hsigma in Hs. discriminate Hs.
Qed.

(** At [T = float]: [sigma("R")] is 3663.57421875. *)
Lemma sigma_spec_witness :
  add_resampled "R" [f32 4096; f32 1; f32 1; f32 1; f32 1] (f32 0) (create 1)
  = Ok store_R_float
  ∧ div_undefined (of_size (size_sub (N_bins store_R_float) 1) : float)
                  (of_size (N_bins store_R_float)) = false
  ∧ sigma "R" store_R_float = Ret (S754_finite false 15006000 (-12) : float)
  ∧ sigma "Q" store_R_float = Raise out_of_range.
Proof.
  destruct (sigma_spec (K:=string) (T:=float) "R" store_R_float) as [Hreg _].
  destruct (sigma_spec (K:=string) (T:=float) "Q" store_R_float) as [_ Habs].
  assert (Xs_reduced_samples store_R_float !! "R"
          = Some [f32 4096; f32 1; f32 1; f32 1; f32 1]) as Hv
    by (vm_compute; reflexivity).
  assert (Xs_mu store_R_float !! "R" = Some (f32 0)) as Hm
    by (vm_compute; reflexivity).
  assert (Xs_reduced_samples store_R_float !! "Q" = None) as Hq
    by (vm_compute; reflexivity).
  assert (div_undefined (of_size (size_sub (N_bins store_R_float) 1) : float)
                        (of_size (N_bins store_R_float)) = false) as Hdef
    by reflexivity.
  destruct (Hreg _ _ Hv Hm) as (Hsigma & _ & _).
  split; [vm_compute; reflexivity|]. split; [exact Hdef|].
  split; [|exact (Habs Hq)].
  rewrite (Hsigma Hdef). vm_compute. reflexivity.
Defined.

Lemma add_function_spec_witness :
  not_present "S" store_XY = true
  ∧ add_function "S" plus_seq ["X"; "Y"] store_XY = Ok store_XYS
  ∧ (∃ args_mu,
       Forall2 (λ key m, mu key store_XY = Ret m) ["X"; "Y"] args_mu
       ∧ mu "S" store_XYS = Ret (plus_seq args_mu))
  ∧ add_function "S" plus_seq ["X"; "Q"] store_XY = Throw out_of_range store_XY.
Proof.
  assert (not_present "S" store_XY = true) as Hk by (vm_compute; reflexivity).
  assert (add_function "S" plus_seq ["X"; "Y"] store_XY = Ok store_XYS) as Hres
    by (vm_compute; reflexivity).
  assert (Xs_mu store_XY !! "Q" = None) as Hq by (vm_compute; reflexivity).
  destruct (add_function_spec (K:=string) (T:=Z) "S" plus_seq ["X"; "Y"]
              store_XY Hk) as (Hok & _ & _).
  destruct (add_function_spec (K:=string) (T:=Z) "S" plus_seq ["X"; "Q"]
              store_XY Hk) as (_ & _ & Hthrow).
  split; [exact Hk|]. split; [exact Hres|]. split.
  - destruct (Hok _ Hres) as (_ & args_mu & Hargs & Hmu & _).
    exists args_mu. split; [exact Hargs | exact Hmu].
  - apply Hthrow. exists "Q". split; [|exact Hq].
    apply elem_of_cons. right. apply elem_of_cons. by left.
Defined.

Lemma registration_bin_count_rules_witness :
  not_present "X" (create 2 : Store string Z) = true
  ∧ (∃ st', resample "X" [1; 2; 3; 4; 5] (create 2) = Ok st'
            ∧ N_bins st' = (5 / 2)%N)
  ∧ resample "X" [1; 2; 3] (create 2)
    = Throw (runtime_error less_than_2_bins) (create 2)
  ∧ add_resampled "Y" [1; 2; 3] 2 store_X
    = Throw (runtime_error different_number_of_bins) store_X.
Proof.
  assert (not_present "X" (create 2 : Store string Z) = true) as Hk
    by (vm_compute; reflexivity).
  assert (not_present "Y" store_X = true) as Hy by (vm_compute; reflexivity).
  assert (bin_size (create 2 : Store string Z) ≠ 0%N) as Hbs by discriminate.
  destruct (registration_bin_count_rules (K:=string) (T:=Z)
              "X" [1; 2; 3; 4; 5] [] 0 (create 2) Hk) as (Hraw & _).
  destruct (Hraw Hbs) as (Hfirst & _).
  destruct (registration_bin_count_rules (K:=string) (T:=Z)
              "X" [1; 2; 3] [] 0 (create 2) Hk) as (Hraw' & _).
  destruct (Hraw' Hbs) as (_ & Hfew & _).
  destruct (registration_bin_count_rules (K:=string) (T:=Z)
              "Y" [] [1; 2; 3] 2 store_X Hy)
    as (_ & _ & _ & Hmismatch & _).
  split; [exact Hk|]. split; [|split].
  - apply Hfirst; reflexivity.
  - apply Hfew; [reflexivity | discriminate].
  - apply Hmismatch; discriminate.
Defined.

Lemma present_key_is_noop_witness :
  is_Some (Xs_mu store_X !! "X")
  ∧ resample "X" [1] store_X = Ok store_X
  ∧ add_resampled "X" [] 0 store_X = Ok store_X
  ∧ add_function "X" plus_seq ["Q"; "R"] store_X = Ok store_X
  ∧ add_function_pack "X" plus_2 [# "Q"; "R"] store_X = Ok store_X.
Proof.
  assert (is_Some (Xs_mu store_X !! "X")) as Hx
    by (exists 3; vm_compute; reflexivity).
  destruct (present_key_is_noop (K:=string) (T:=Z) "X" store_X
              (or_intror Hx)) as (H1 & H2 & H3 & H4).
  split; [exact Hx|]. split; [apply H1|]. split; [apply H2|].
  split; [apply H3 | apply (H4 2%nat plus_2)].
Defined.

Lemma remove_spec_witness :
  add_function "S" plus_seq ["X"; "Y"] store_XY = Ok store_XYS
  ∧ mu "X" (remove "X" store_XYS) = Raise out_of_range
  ∧ sigma "X" (remove "X" store_XYS) = Raise out_of_range
  ∧ samples "X" (remove "X" store_XYS) = Raise out_of_range
  ∧ mu "S" (remove "X" store_XYS) = mu "S" store_XYS
  ∧ samples "S" (remove "X" store_XYS) = samples "S" store_XYS
  ∧ sigma "S" (remove "X" store_XYS) = sigma "S" store_XYS
  ∧ not_present "Q" store_XYS = true
  ∧ remove "Q" store_XYS = store_XYS.
Proof.
  destruct (remove_spec (K:=string) (T:=Z) "X" store_XYS)
    as (_ & _ & _ & Hmu & Hsigma & Hsamples & Hother).
  destruct (remove_spec (K:=string) (T:=Z) "Q" store_XYS)
    as (_ & _ & Habsent & _).
  assert ("S" ≠ "X") as Hne by discriminate.
  destruct (Hother "S" Hne) as (_ & _ & HmuS & HsigmaS & HsamplesS).
  assert (not_present "Q" store_XYS = true) as Hq
    by (vm_compute; reflexivity).
  split; [vm_compute; reflexivity|].
  split; [exact Hmu|]. split; [exact Hsigma|]. split; [exact Hsamples|].
  split; [exact HmuS|]. split; [exact HsamplesS|]. split; [exact HsigmaS|].
  split; [exact Hq | exact (Habsent Hq)].
Defined.

(** C8 fails on the code, twice.  At [T = long], on the store
    after [add_function("c", F, {})] the key ["c"] is registered and
    [jackknife("c")] divides by [(T) 0].  At [T = float], on the store
    after [add_resampled("R", {4096, 1, 1, 1, 1}, 0)], [sigma("R")]
    returns 3663.57421875 and [jackknife("R")] assigns
    3663.57373046875: the [float] accumulator of [jackknife] loses
    the four ones that the [double] accumulator of [sigma] keeps. *)
Lemma jackknife_undefined_and_unlike_sigma :
  (run_ops [op_add_function "c" (λ _, 7) []] (create 1) = Some store_c
   ∧ mu "c" store_c = Ret 7
   ∧ samples "c" store_c = Ret []
   ∧ jackknife "c" 0 0 store_c = Undef)
  ∧ (add_resampled "R" [f32 4096; f32 1; f32 1; f32 1; f32 1] (f32 0) (create 1)
     = Ok store_R_float
     ∧ sigma "R" store_R_float = Ret (S754_finite false 15006000 (-12) : float)
     ∧ jackknife "R" (f32 0) (f32 0) store_R_float
       = Ret (true, f32 0, S754_finite false 15005998 (-12) : float)
     ∧ ¬ (∀ s, sigma "R" store_R_float = Ret s →
               jackknife "R" (f32 0) (f32 0) store_R_float
               = Ret (true, f32 0, s))).
Proof.
  assert (sigma "R" store_R_float
          = Ret (S754_finite false 15006000 (-12) : float)) as Hsigma
    by (vm_compute; reflexivity).
  assert (jackknife "R" (f32 0) (f32 0) store_R_float
          = Ret (true, f32 0, S754_finite false 15005998 (-12) : float))
    as Hjack by (vm_compute; reflexivity).
  split.
  - split; [vm_compute; reflexivity|].
    split; [vm_compute; reflexivity|].
    split; vm_compute; reflexivity.
  - split; [vm_compute; reflexivity|].
    split; [exact Hsigma|]. split; [exact Hjack|].
    intros Hsame. specialize (Hsame _ Hsigma).
    rewrite Hjack in Hsame. vm_compute in Hsame. discriminate Hsame.
Qed.

(** At [T = float] [jackknife("R")] assigns 3663.57373046875; at
    [T = double] it assigns what [sigma("R")] returns. *)
Lemma jackknife_spec_witness :
  jackknife "R" (f32 0) (f32 0) store_R_float
  = Ret (true, f32 0, S754_finite false 15005998 (-12) : float)
  ∧ jackknife "Q" (f32 9) (f32 9) store_R_float = Ret (false, f32 9, f32 9)
  ∧ sigma "R" store_R_double
    = Ret (S754_finite false 8056284888578347 (-41) : double)
  ∧ jackknife "R" (f64 0) (f64 0) store_R_double
    = Ret (true, f64 0, S754_finite false 8056284888578347 (-41) : double).
Proof.
  destruct (jackknife_spec (K:=string) (T:=float) "R" (f32 0) (f32 0)
              store_R_float) as (_ & Hreg & _).
  destruct (jackknife_spec (K:=string) (T:=float) "Q" (f32 9) (f32 9)
              store_R_float) as (_ & _ & Habs).
  destruct (jackknife_spec (K:=string) (T:=double) "R" (f64 0) (f64 0)
              store_R_double) as (_ & Hreg_double & _).
  assert (Xs_reduced_samples store_R_float !! "R"
          = Some [f32 4096; f32 1; f32 1; f32 1; f32 1]) as Hv
    by (vm_compute; reflexivity).
  assert (Xs_mu store_R_float !! "R" = Some (f32 0)) as Hm
    by (vm_compute; reflexivity).
  assert (Xs_reduced_samples store_R_float !! "Q" = None) as Hq
    by (vm_compute; reflexivity).
  assert (div_undefined (of_size (size_sub (N_bins store_R_float) 1) : float)
                        (of_size (N_bins store_R_float)) = false) as Hdef
    by reflexivity.
  assert (Xs_reduced_samples store_R_double !! "R"
          = Some [f64 4096; f64 1; f64 1; f64 1; f64 1]) as Hv_double
    by (vm_compute; reflexivity).
  assert (Xs_mu store_R_double !! "R" = Some (f64 0)) as Hm_double
    by (vm_compute; reflexivity).
  assert (sigma "R" store_R_double
          = Ret (S754_finite false 8056284888578347 (-41) : double))
    as Hsigma by (vm_compute; reflexivity).
  assert (∀ y : double, to_double (of_double y : double) = y) as Hconv
    by reflexivity.
  assert (to_double (of_int 0 : double) = double_zero) as Hzero
    by reflexivity.
  assert (∀ a b : double,
            to_double (mul a b) = double_mul (to_double a) (to_double b))
    as Hmul by reflexivity.
  destruct (Hreg _ _ Hv Hm) as (Hjack & _ & _).
  destruct (Hreg_double _ _ Hv_double Hm_double) as (_ & _ & Hsame).
  split; [|split; [exact (Habs (or_introl Hq))|split; [exact Hsigma|]]].
  - rewrite (Hjack Hdef). vm_compute. reflexivity.
  - exact (Hsame Hconv Hzero Hmul _ Hsigma).
Defined.

Lemma add_function_overloads_agree_witness :
  (∀ args : vec Z 2, plus_seq (vec_to_list args) = napply args plus_2)
  ∧ add_function "S" plus_seq ["X"; "Y"] store_XY
    = add_function_pack "S" plus_2 [# "X"; "Y"] store_XY
  ∧ add_function_pack "S" plus_2 [# "X"; "Y"] store_XY = Ok store_XYS.
Proof.
  assert (∀ args : vec Z 2, plus_seq (vec_to_list args) = napply args plus_2)
    as Hagree.
  { intros args. inv_vec args. intros a b. reflexivity. }
  split; [exact Hagree|]. split.
  - exact (add_function_overloads_agree (K:=string) (T:=Z) "S"
             plus_seq plus_2 [# "X"; "Y"] store_XY Hagree).
  - vm_compute. reflexivity.
Defined.

Lemma N_bins_never_changes_witness :
  N_bins store_X ≠ 0%N
  ∧ run_ops [op_remove "X"; op_resample "Y" [1; 2; 3]] store_X
    = Some (mkStore 6 1 ∅ ∅)
  ∧ N_bins (remove "X" store_X) = N_bins store_X
  ∧ resample "Y" [1; 2; 3] (mkStore 6 1 ∅ ∅)
    = Throw (runtime_error different_number_of_bins) (mkStore 6 1 ∅ ∅).
Proof.
  assert (not_present "X" (create 1 : Store string Z) = true) as Hk
    by (vm_compute; reflexivity).
  assert (resample "X" [1; 2; 3; 4; 5; 6] (create 1) = Ok store_X) as Hres
    by (vm_compute; reflexivity).
  assert (not_present "Y" (mkStore 6 1 ∅ ∅ : Store string Z) = true) as Hy
    by (vm_compute; reflexivity).
  destruct (N_bins_never_changes (K:=string) (T:=Z) store_X)
    as (Hset & _ & Hfixed).
  assert (N_bins store_X ≠ 0%N) as Hnz by exact (Hset _ _ _ Hk Hres).
  destruct (Hfixed Hnz) as (_ & _ & Hremove & _).
  destruct (N_bins_never_changes (K:=string) (T:=Z) (mkStore 6 1 ∅ ∅))
    as (_ & _ & Hfixed').
  assert (N_bins (mkStore 6 1 ∅ ∅ : Store string Z) ≠ 0%N) as Hnz'
    by discriminate.
  destruct (Hfixed' Hnz') as (_ & _ & _ & Hraw & _).
  split; [exact Hnz|]. split; [vm_compute; reflexivity|].
  split; [exact (Hremove "X")|].
  apply (Hraw "Y" [1; 2; 3] Hy); discriminate.
Defined.

(** The stores of the failing sequence: after [add_function("c", F, {})]
    and [resample("x", {1, 2})] on a new analyzer, and after the
    [add_function("d", G, {"c"})] that throws. *)
#[local] Abbreviation store_c_x :=
  (mkStore 2 1 {["c" := []; "x" := [2; 1]]} {["c" := 7; "x" := 1]}
   : Store string Z).
#[local] Abbreviation store_c_x_d :=
  (mkStore 2 1 {["c" := []; "x" := [2; 1]]} {["c" := 7; "x" := 1; "d" := 7]}
   : Store string Z).

(** C6 fails on the code.  [add_function] without argument keys on a
    new analyzer stores a dataset with no replicates while [N_bins]
    is unset; the next [resample] sets [N_bins] to 2 and the dataset
    keeps its empty series.  An [add_function] over that dataset then
    stores the mean of its result, throws in [vector::at], and leaves
    the result key with a mean and without a series. *)
Theorem add_function_without_arguments_breaks_joint_presence :
  run_ops [op_add_function "c" (λ _, 7) []; op_resample "x" [1; 2]] (create 1)
  = Some store_c_x
  ∧ N_bins store_c_x = 2%N
  ∧ mu "c" store_c_x = Ret 7
  ∧ samples "c" store_c_x = Ret []
  ∧ ¬ joint_presence store_c_x
  ∧ add_function "d" sum_of ["c"] store_c_x = Throw out_of_range store_c_x_d
  ∧ mu "d" store_c_x_d = Ret 7
  ∧ samples "d" store_c_x_d = Raise out_of_range
  ∧ ¬ joint_presence store_c_x_d.
Proof.
  assert (Xs_mu store_c_x !! "c" = Some 7) as Hmc by (vm_compute; reflexivity).
  assert (Xs_reduced_samples store_c_x !! "c" = Some []) as Hvc
    by (vm_compute; reflexivity).
  assert (Xs_mu store_c_x_d !! "d" = Some 7) as Hmd
    by (vm_compute; reflexivity).
  assert (Xs_reduced_samples store_c_x_d !! "d" = None) as Hvd
    by (vm_compute; reflexivity).
  split; [vm_compute; reflexivity|].
  split; [reflexivity|].
  split; [by apply at_Some|]. split; [by apply at_Some|].
  split.
  { intros Hjoint.
    destruct (Hjoint "c") as [[Hnone _]|(_ & v & Hv & Hlen)].
    - rewrite Hmc in Hnone. discriminate Hnone.
    - rewrite Hvc in Hv. injection Hv as <-. discriminate Hlen. }
  split; [vm_compute; reflexivity|].
  split; [by apply at_Some|]. split; [by apply at_None|].
  intros Hjoint.
  destruct (Hjoint "d") as [[Hnone _]|(_ & v & Hv & _)].
  - rewrite Hmd in Hnone. discriminate Hnone.
  - rewrite Hvd in Hv. discriminate Hv.
Qed.

(** With argument keys in every [add_function], the same kind of
    sequence keeps joint presence. *)
Example run_ops_joint_presence_example :
  run_ops [op_resample "x" [1; 2]; op_add_function "d" sum_of ["x"];
           op_add_function "e" sum_of ["q"]; op_remove "x"]
          (create 1)
  = Some (mkStore 2 1 {["d" := [2; 1]]} {["d" := 1]})
  ∧ joint_presence (mkStore 2 1 {["d" := [2; 1]]} {["d" := 1]} : Store string Z).
Proof.
  assert (run_ops [op_resample "x" [1; 2]; op_add_function "d" sum_of ["x"];
                   op_add_function "e" sum_of ["q"]; op_remove "x"]
                  (create 1)
          = Some (mkStore 2 1 {["d" := [2; 1]]} {["d" := 1]})) as Hrun
    by (vm_compute; reflexivity).
  split; [exact Hrun|].
  apply (run_ops_joint_presence _ 1 _) in Hrun; [exact Hrun|].
  repeat (constructor; [by simpl|]). constructor.
Qed.

(** * The further properties at [K = std::string], [T = long] *)

(** The store after [add_resampled("X", {1, 2}, 1)] and
    [add_resampled("Y", {10, 20}, 15)] on a new analyzer is
    [store_XY]. *)
Lemma store_XY_reachable :
  run_ops [op_add_resampled "X" [1; 2] 1; op_add_resampled "Y" [10; 20] 15]
          (create 1)
  = Some store_XY.
Proof. vm_compute. reflexivity. Qed.

Lemma store_XY_arguments :
  Forall (has_arguments (K:=string) (T:=Z))
         [op_add_resampled "X" [1; 2] 1; op_add_resampled "Y" [10; 20] 15].
Proof. repeat (constructor; [by simpl|]). constructor. Qed.

Lemma resample_reads_inside_the_vector_witness :
  init_or_verify_N (size [1; 2; 3; 4; 100]) false (create 2 : Store string Z)
  = Ok (mkStore 2 2 ∅ ∅)
  ∧ is_Some ([1; 2; 3; 4; 100] !! 3%nat)
  ∧ is_Some (red_sample_of [1; 2; 3; 4; 100] 110 2 1).
Proof.
  assert (init_or_verify_N (size [1; 2; 3; 4; 100]) false
            (create 2 : Store string Z)
          = Ok (mkStore 2 2 ∅ ∅)) as Hinit by (vm_compute; reflexivity).
  destruct (resample_reads_inside_the_vector (K:=string) (T:=Z)
              [1; 2; 3; 4; 100] (create 2) _ 110 Hinit) as (_ & _ & Hbins).
  assert (1 < 2)%N as Hb by reflexivity.
  destruct (Hbins 1%N Hb) as (Hindex & Hred).
  split; [exact Hinit|]. split; [|exact Hred].
  apply (Hindex 3%N). apply elem_of_range. split; [discriminate | reflexivity].
Defined.

Lemma add_resampled_round_trip_witness :
  not_present "R" (create 1 : Store string Z) = true
  ∧ add_resampled "R" [5; 6; 7] 6 (create 1)
    = Ok (mkStore 3 1 {["R" := [5; 6; 7]]} {["R" := 6]})
  ∧ samples "R" (mkStore 3 1 {["R" := [5; 6; 7]]} {["R" := 6]}) = Ret [5; 6; 7]
  ∧ mu "R" (mkStore 3 1 {["R" := [5; 6; 7]]} {["R" := 6]}) = Ret 6.
Proof.
  assert (not_present "R" (create 1 : Store string Z) = true) as Hk
    by (vm_compute; reflexivity).
  assert (add_resampled "R" [5; 6; 7] 6 (create 1)
          = Ok (mkStore 3 1 {["R" := [5; 6; 7]]} {["R" := 6]})) as Hres
    by (vm_compute; reflexivity).
  destruct (add_resampled_round_trip (K:=string) (T:=Z) "R" [5; 6; 7] 6
              (create 1) _ Hk Hres) as (Hsamples & Hmu & _).
  split; [exact Hk|]. split; [exact Hres|].
  split; [exact Hsamples | exact Hmu].
Defined.

Lemma registration_extends_maps_witness :
  store_after (run_op (op_add_function "S" plus_seq ["X"; "Y"]) store_XY)
  = Some store_XYS
  ∧ op_key (op_add_function (T:=Z) "S" plus_seq ["X"; "Y"]) ≠ None
  ∧ mu "X" store_XY = Ret 1
  ∧ mu "X" store_XYS = Ret 1
  ∧ samples "Y" store_XYS = Ret [10; 20].
Proof.
  assert (store_after (run_op (op_add_function "S" plus_seq ["X"; "Y"]) store_XY)
          = Some store_XYS) as Hafter by (vm_compute; reflexivity).
  assert (op_key (op_add_function (T:=Z) "S" plus_seq ["X"; "Y"]) ≠ None)
    as Hop by discriminate.
  assert (mu "X" store_XY = Ret 1) as Hx by (vm_compute; reflexivity).
  assert (samples "Y" store_XY = Ret [10; 20]) as Hy
    by (vm_compute; reflexivity).
  destruct (registration_extends_maps (K:=string) (T:=Z) _ _ _ Hafter)
    as (Hreg & _).
  destruct (Hreg Hop) as (_ & _ & Hkeep).
  split; [exact Hafter|]. split; [exact Hop|]. split; [exact Hx|].
  split.
  - exact (proj1 (Hkeep "X" 1 []) Hx).
  - exact (proj2 (Hkeep "Y" 0 [10; 20]) Hy).
Defined.

Lemma sigma_is_stable_witness :
  N_bins store_XY ≠ 0%N
  ∧ sigma "X" store_XYS = sigma "X" store_XY
  ∧ jackknife "X" 0 0 store_XYS = jackknife "X" 0 0 store_XY.
Proof.
  assert (store_after (run_op (op_add_function "S" plus_seq ["X"; "Y"]) store_XY)
          = Some store_XYS) as Hafter by (vm_compute; reflexivity).
  assert (op_key (op_add_function (T:=Z) "S" plus_seq ["X"; "Y"]) ≠ None)
    as Hop by discriminate.
  assert (N_bins store_XY ≠ 0%N) as HN by discriminate.
  assert (is_Some (Xs_mu store_XY !! "X")) as Hm
    by (exists 1; vm_compute; reflexivity).
  assert (is_Some (Xs_reduced_samples store_XY !! "X")) as Hv
    by (exists [1; 2]; vm_compute; reflexivity).
  destruct (sigma_is_stable (K:=string) (T:=Z) _ "X" _ _ Hafter HN Hop Hm Hv)
    as (Hsigma & Hjack).
  split; [exact HN|]. split; [exact Hsigma | exact (Hjack 0 0)].
Defined.

Lemma remove_undoes_registration_witness :
  not_present "d" store_c_x = true
  ∧ add_function "d" sum_of ["c"] store_c_x = Throw out_of_range store_c_x_d
  ∧ remove "d" store_c_x_d = store_c_x.
Proof.
  assert (not_present "d" store_c_x = true) as Hk by (vm_compute; reflexivity).
  assert (add_function "d" sum_of ["c"] store_c_x
          = Throw out_of_range store_c_x_d) as Hres
    by (vm_compute; reflexivity).
  assert (store_after (run_op (op_add_function "d" sum_of ["c"]) store_c_x)
          = Some store_c_x_d) as Hafter by (vm_compute; reflexivity).
  split; [exact Hk|]. split; [exact Hres|].
  exact (remove_undoes_registration (K:=string) (T:=Z)
           (op_add_function "d" sum_of ["c"]) "d" store_c_x store_c_x_d
           eq_refl Hk Hafter).
Defined.

Lemma remove_then_resample_witness :
  bin_size store_XY ≠ 0%N
  ∧ (size [5; 7] / bin_size store_XY)%N = N_bins store_XY
  ∧ ∃ st', resample "X" [5; 7] (remove "X" store_XY) = Ok st'
           ∧ mu "X" st' = Ret (12 `quot` 2)
           ∧ Xs_mu st' !! "Y" = Xs_mu store_XY !! "Y".
Proof.
  assert (bin_size store_XY ≠ 0%N) as Hbs by discriminate.
  assert (N_bins store_XY ≠ 0%N) as HN by discriminate.
  assert ((size [5; 7] / bin_size store_XY)%N = N_bins store_XY) as Hbins
    by reflexivity.
  assert ("Y" ≠ "X") as Hne by discriminate.
  destruct (remove_then_resample (K:=string) (T:=Z) "X" [5; 7] store_XY
              Hbs HN Hbins) as (st' & Hres & _ & Hmu & _ & Hother).
  split; [exact Hbs|]. split; [exact Hbins|].
  exists st'. split; [exact Hres|]. split; [exact Hmu|].
  exact (proj1 (Hother "Y" Hne)).
Defined.

Lemma registration_is_idempotent_witness :
  run_op (op_resample "X" [1; 2; 3; 4; 5; 6]) (create 1) = Ok store_X
  ∧ run_op (op_add_resampled "X" [] 0) store_X = Ok store_X
  ∧ run_op (op_add_function "X" plus_seq ["Q"]) store_X = Ok store_X.
Proof.
  assert (run_op (op_resample "X" [1; 2; 3; 4; 5; 6]) (create 1) = Ok store_X)
    as Hres by (vm_compute; reflexivity).
  split; [exact Hres|]. split.
  - exact (registration_is_idempotent (K:=string) (T:=Z)
             (op_resample "X" [1; 2; 3; 4; 5; 6]) (op_add_resampled "X" [] 0)
             "X" (create 1) store_X eq_refl Hres eq_refl).
  - exact (registration_is_idempotent (K:=string) (T:=Z)
             (op_resample "X" [1; 2; 3; 4; 5; 6])
             (op_add_function "X" plus_seq ["Q"])
             "X" (create 1) store_X eq_refl Hres eq_refl).
Defined.

Lemma N_bins_is_unset_or_at_least_2_witness :
  run_ops [op_resample "X" [1; 2; 3; 4; 5; 6]; op_resample "Y" [1; 2];
           op_remove "X"] (create 1)
  = Some (mkStore 6 1 ∅ ∅)
  ∧ bin_size (mkStore 6 1 ∅ ∅ : Store string Z) = 1%N
  ∧ (N_bins (mkStore 6 1 ∅ ∅ : Store string Z) = 0%N
     ∨ (2 ≤ N_bins (mkStore 6 1 ∅ ∅ : Store string Z))%N).
Proof.
  assert (run_ops [op_resample "X" [1; 2; 3; 4; 5; 6]; op_resample "Y" [1; 2];
                   op_remove "X"] (create 1)
          = Some (mkStore 6 1 ∅ ∅ : Store string Z)) as Hrun
    by (vm_compute; reflexivity).
  split; [exact Hrun|].
  exact (N_bins_is_unset_or_at_least_2 (K:=string) (T:=Z) _ 1 _ Hrun).
Defined.

Lemma add_function_exception_safe_witness :
  joint_presence store_XY
  ∧ add_function "S" plus_seq ["X"; "Q"] store_XY = Throw out_of_range store_XY
  ∧ ∃ key, key ∈ ["X"; "Q"] ∧ Xs_mu store_XY !! key = None.
Proof.
  pose proof (run_ops_joint_presence (K:=string) (T:=Z) _ 1 _
                store_XY_arguments store_XY_reachable) as Hjoint.
  assert (add_function "S" plus_seq ["X"; "Q"] store_XY
          = Throw out_of_range store_XY) as Hres by (vm_compute; reflexivity).
  destruct (add_function_exception_safe (K:=string) (T:=Z) "S" store_XY Hjoint)
    as (Hvector & _).
  destruct (Hvector plus_seq ["X"; "Q"] _ _ Hres) as (_ & _ & Hmissing).
  split; [exact Hjoint|]. split; [exact Hres | exact Hmissing].
Defined.

Lemma add_function_self_reference_witness :
  not_present "S" store_XY = true
  ∧ add_function "S" plus_seq ["X"; "S"] store_XY = Throw out_of_range store_XY
  ∧ add_function_pack "S" plus_2 [# "S"; "Y"] store_XY
    = Throw out_of_range store_XY.
Proof.
  assert (not_present "S" store_XY = true) as Hk by (vm_compute; reflexivity).
  destruct (add_function_self_reference (K:=string) (T:=Z) "S" store_XY Hk)
    as (Hvector & Hpack).
  split; [exact Hk|]. split.
  - apply Hvector. apply elem_of_cons. right. apply elem_of_cons. by left.
  - apply (Hpack 2%nat plus_2 [# "S"; "Y"]). apply elem_of_cons. by left.
Defined.

Lemma add_function_no_arguments_witness :
  not_present "c" store_X = true
  ∧ add_function "c" (λ _, 7) [] store_X
    = Ok (set_reduced_samples "c" (replicate 6 7) (set_mu "c" 7 store_X))
  ∧ add_function "c" (λ _, 7) [] (create 1)
    = Ok (set_reduced_samples "c" [] (set_mu "c" 7 (create 1))).
Proof.
  assert (not_present "c" store_X = true) as Hk by (vm_compute; reflexivity).
  assert (not_present "c" (create 1 : Store string Z) = true) as Hk0
    by (vm_compute; reflexivity).
  destruct (add_function_no_arguments (K:=string) (T:=Z) "c" store_X Hk)
    as (Hvector & _).
  destruct (add_function_no_arguments (K:=string) (T:=Z) "c" (create 1) Hk0)
    as (Hvector0 & _).
  split; [exact Hk|].
  split; [exact (Hvector (λ _, 7)) | exact (Hvector0 (λ _, 7))].
Defined.

Lemma create_resample_spec_witness :
  create_resample "X" [1; 2; 3; 4; 5; 6] 1
  = Ok (mkStore 6 1 {["X" := reduced_samples_of [1; 2; 3; 4; 5; 6] 1 6]}
                    {["X" := 21 `quot` 6]})
  ∧ create_resample "X" [1; 2; 3] 2
    = Throw (runtime_error less_than_2_bins) (create 2)
  ∧ create_resample "X" [1; 2; 3] 0 = Undefined.
Proof.
  destruct (create_resample_spec (K:=string) (T:=Z) "X" [1; 2; 3; 4; 5; 6] 1)
    as (_ & Hok & _).
  destruct (create_resample_spec (K:=string) (T:=Z) "X" [1; 2; 3] 2)
    as (_ & _ & Hfew).
  destruct (create_resample_spec (K:=string) (T:=Z) "X" [1; 2; 3] 0)
    as (Hzero & _).
  assert (1 ≠ 0)%N as H1 by discriminate.
  assert (2 ≠ 0)%N as H2 by discriminate.
  split; [|split].
  - apply (Hok H1). reflexivity.
  - apply (Hfew H2). discriminate.
  - apply Hzero. reflexivity.
Defined.

Lemma reachable_queries_agree_witness :
  (∃ m v, mu "X" store_XY = Ret m
          ∧ samples "X" store_XY = Ret v
          ∧ size v = N_bins store_XY
          ∧ N_bins store_XY ≠ 0%N
          ∧ ((bins_ratio store_XY = Undef
              ∧ sigma "X" store_XY = Undef
              ∧ ∀ mu_X sigma_X, jackknife "X" mu_X sigma_X store_XY = Undef)
             ∨ (∃ s s',
                  sigma "X" store_XY = Ret s
                  ∧ ∀ mu_X sigma_X,
                      jackknife "X" mu_X sigma_X store_XY = Ret (true, m, s'))))
  ∧ jackknife "Q" 9 9 store_XY = Ret (false, 9, 9).
Proof.
  assert (mu "X" store_XY = Ret 1) as Hx by (vm_compute; reflexivity).
  assert (mu "Q" store_XY = Raise out_of_range) as Hq
    by (vm_compute; reflexivity).
  split.
  - destruct (reachable_queries_agree (K:=string) (T:=Z) _ 1 _ "X"
                store_XY_arguments store_XY_reachable)
      as [(Habsent & _)|Hpresent].
    + rewrite Hx in Habsent. discriminate Habsent.
    + exact Hpresent.
  - destruct (reachable_queries_agree (K:=string) (T:=Z) _ 1 _ "Q"
                store_XY_arguments store_XY_reachable)
      as [(_ & _ & _ & Hjack)|(m & v & Hpresent & _)].
    + exact (Hjack 9 9).
    + rewrite Hq in Hpresent. discriminate Hpresent.
Defined.

Lemma add_function_pack_spec_witness :
  not_present "S" store_XY = true
  ∧ add_function_pack "S" plus_2 [# "X"; "Y"] store_XY = Ok store_XYS
  ∧ ∃ args_mu : vec Z 2,
      Forall2 (λ key m, mu key store_XY = Ret m) ["X"; "Y"] (vec_to_list args_mu)
      ∧ mu "S" store_XYS = Ret (napply args_mu plus_2).
Proof.
  assert (not_present "S" store_XY = true) as Hk by (vm_compute; reflexivity).
  assert (add_function_pack "S" plus_2 [# "X"; "Y"] store_XY = Ok store_XYS)
    as Hres by (vm_compute; reflexivity).
  destruct (add_function_pack_spec (K:=string) (T:=Z) "S" plus_2
              [# "X"; "Y"] store_XY store_XYS Hk Hres) as (_ & Hmean & _).
  split; [exact Hk|]. split; [exact Hres | exact Hmean].
Defined.

(** [keys()] at [K = unsigned], with [<] on the keys. *)
Lemma keys_spec_witness :
  keys lt (mkStore 2 1 {[3%nat := [1; 2]; 1%nat := [10; 20]]}
                       {[3%nat := 1; 1%nat := 15]} : Store nat Z)
  = [1%nat; 3%nat]
  ∧ StronglySorted lt
      (keys lt (mkStore 2 1 {[3%nat := [1; 2]; 1%nat := [10; 20]]}
                            {[3%nat := 1; 1%nat := 15]} : Store nat Z))
  ∧ (2%nat ∈ keys lt (mkStore 2 1 {[3%nat := [1; 2]; 1%nat := [10; 20]]}
                              {[3%nat := 1; 1%nat := 15]} : Store nat Z)
     ↔ ∃ m, mu 2%nat (mkStore 2 1 {[3%nat := [1; 2]; 1%nat := [10; 20]]}
                              {[3%nat := 1; 1%nat := 15]} : Store nat Z)
            = Ret m).
Proof.
  destruct (keys_spec (K:=nat) (T:=Z) lt
              (StrictOrder0:=Nat.lt_strorder) (Trichotomy0:=Nat.lt_trichotomy)
              (mkStore 2 1 {[3%nat := [1; 2]; 1%nat := [10; 20]]}
                           {[3%nat := 1; 1%nat := 15]}))
    as (Hmem & _ & Hsorted & _).
  split; [vm_compute; reflexivity|].
  split; [exact Hsorted | exact (Hmem 2%nat)].
Defined.
